(** * utp.py: capacitances of unshielded twisted pairs

    A shallow embedding of [utp.py] and the properties of its output table.

    Python floats are idealised as real numbers ([R]); the fallible
    primitives of the script ([/], [math.log], [math.log10], the [%]
    string formatting operator, [sys.exit]) return in an error monad, and
    [print] appends one line to an explicit standard output.  A separate
    module, [B64], holds the loop body in binary64 on the primitive floats,
    operation by operation, with the C library's two logarithms as
    parameters; it carries the facts that depend on rounding. *)

From Stdlib Require Import Reals Lra Lia List String Ascii ZArith Bool.
From Stdlib Require Import DecimalString Sorted.
From Stdlib Require Floats.
Import ListNotations.

Open Scope R_scope.

(** ** Exceptions and the two monads *)

Inductive exn : Type :=
| ValueError            (* math domain error *)
| ZeroDivisionError     (* float division by zero *)
| TypeError             (* wrong argument for a conversion, or argument count *)
| Unsupported           (* a conversion outside the modelled fragment of [%] *)
| SystemExit (code : Z).

Inductive result (A : Type) : Type :=
| Ok (a : A)
| Raise (e : exn).

Arguments Ok {A} a.
Arguments Raise {A} e.

Definition rbind {A B} (r : result A) (f : A -> result B) : result B :=
  match r with
  | Ok a => f a
  | Raise e => Raise e
  end.

(** Statements run against the lines already written to standard output. *)
Definition M (A : Type) : Type := list string -> list string * result A.

Definition ret {A} (a : A) : M A := fun out => (out, Ok a).

Definition bind {A B} (m : M A) (f : A -> M B) : M B :=
  fun out =>
    match m out with
    | (out', Ok a) => f a out'
    | (out', Raise e) => (out', Raise e)
    end.

Definition lift {A} (r : result A) : M A := fun out => (out, r).

Declare Scope py_scope.
Delimit Scope py_scope with py.

Notation "x <- e ;; k" := (rbind e (fun x => k))
  (at level 61, e at next level, right associativity) : py_scope.

Notation "'let*' x ':=' e 'in' k" := (bind e (fun x => k))
  (at level 61, x pattern, e at next level, right associativity) : py_scope.

Notation "e1 ;;; e2" := (bind e1 (fun _ => e2))
  (at level 62, right associativity) : py_scope.

(** ** Python primitives *)

(** [a / b] on floats. *)
Definition py_div (a b : R) : result R :=
  if Req_dec_T b 0 then Raise ZeroDivisionError else Ok (a / b).

(** Base-10 logarithm on the reals. *)
Definition log10 (x : R) : R := ln x / ln 10.

(** [math.log10(x)]. *)
Definition math_log10 (x : R) : result R :=
  if Rle_dec x 0 then Raise ValueError else Ok (log10 x).

(** [math.log(x)], one argument: the natural logarithm. *)
Definition math_log (x : R) : result R :=
  if Rle_dec x 0 then Raise ValueError else Ok (ln x).

(** [print(s)]: one more line on standard output. *)
Definition print (s : string) : M unit := fun out => (out ++ [s], Ok tt).

(** [sys.exit(code)]. *)
Definition sys_exit (code : Z) : M unit := lift (Raise (SystemExit code)).

(** [for x in xs: body]; an exception leaves the loop. *)
Fixpoint for_each {A} (xs : list A) (body : A -> M unit) : M unit :=
  match xs with
  | [] => ret tt
  | x :: xs' => bind (body x) (fun _ => for_each xs' body)
  end.

(** ** The [%] operator on the fragment the script uses *)

Inductive pyval : Type :=
| PyStr (s : string)
| PyFloat (x : R).

(** Nearest integer, ties to even. *)
Definition round_half_even (x : R) : Z :=
  let f := Int_part x in
  if Rlt_dec (x - IZR f) (1 / 2) then f
  else if Rlt_dec (1 / 2) (x - IZR f) then (f + 1)%Z
  else if Z.even f then f else (f + 1)%Z.

Definition digit_char (d : Z) : ascii :=
  ascii_of_nat (48 + Z.to_nat d).

(** The [n] low decimal digits of [z], most significant first. *)
Fixpoint fixed_digits (n : nat) (z : Z) : string :=
  match n with
  | O => EmptyString
  | S n' => (fixed_digits n' (z / 10) ++ String (digit_char (z mod 10)) EmptyString)%string
  end.

Definition decimal_of_Z (z : Z) : string :=
  NilZero.string_of_uint (N.to_uint (Z.to_N z)).

(** [%.<prec>f] without padding. *)
Definition format_f (prec : nat) (x : R) : string :=
  let n := round_half_even (Rabs x * 10 ^ prec) in
  let int_part := decimal_of_Z (n / 10 ^ Z.of_nat prec) in
  let body :=
    match prec with
    | O => int_part
    | S _ => (int_part ++ "." ++ fixed_digits prec (n mod 10 ^ Z.of_nat prec))%string
    end in
  if Rlt_dec x 0 then ("-" ++ body)%string else body.

Fixpoint spaces (n : nat) : string :=
  match n with
  | O => EmptyString
  | S n' => String " " (spaces n')
  end.

(** Right-justify in a field of [width] characters. *)
Definition rjust (width : nat) (s : string) : string :=
  (spaces (width - String.length s) ++ s)%string.

Definition is_digit (c : ascii) : bool :=
  let n := nat_of_ascii c in (48 <=? n)%nat && (n <=? 57)%nat.

(** Reads a run of decimal digits; [None] when there is none. *)
Fixpoint read_nat (s : string) (acc : option nat) : option nat * string :=
  match s with
  | String c s' =>
      if is_digit c
      then read_nat s' (Some (10 * match acc with Some a => a | None => 0 end
                              + (nat_of_ascii c - 48))%nat)
      else (acc, s)
  | EmptyString => (acc, s)
  end.

(** One conversion specifier after the [%]: width, precision, type. *)
Definition read_spec (s : string) : option nat * option nat * string :=
  let '(width, s1) := read_nat s None in
  match s1 with
  | String "." s2 =>
      let '(prec, s3) := read_nat s2 (Some 0%nat) in (width, prec, s3)
  | _ => (width, None, s1)
  end.

Definition convert (ty : ascii) (width prec : option nat) (v : pyval) : result string :=
  let w := match width with Some w => w | None => 0%nat end in
  match ty, v with
  | "s"%char, PyStr s => Ok (rjust w s)
  | "s"%char, PyFloat _ => Raise Unsupported
  | "f"%char, PyFloat x =>
      Ok (rjust w (format_f (match prec with Some p => p | None => 6%nat end) x))
  | "f"%char, PyStr _ => Raise TypeError
  | _, _ => Raise Unsupported
  end.

(** [fmt % args]; [fuel] bounds the number of characters read. *)
Fixpoint py_format_aux (fuel : nat) (fmt : string) (args : list pyval) : result string :=
  match fuel with
  | O => Raise Unsupported
  | S fuel' =>
      match fmt with
      | EmptyString =>
          match args with
          | [] => Ok EmptyString
          | _ :: _ => Raise TypeError
          end
      | String "%" rest =>
          let '(width, prec, rest1) := read_spec rest in
          match rest1 with
          | String ty rest2 =>
              match args with
              | [] => Raise TypeError
              | v :: args' =>
                  rbind (convert ty width prec v) (fun s =>
                  rbind (py_format_aux fuel' rest2 args') (fun tl =>
                  Ok (s ++ tl)%string))
              end
          | EmptyString => Raise ValueError
          end
      | String c rest =>
          rbind (py_format_aux fuel' rest args) (fun tl => Ok (String c tl))
      end
  end.

Definition py_format (fmt : string) (args : list pyval) : result string :=
  py_format_aux (S (String.length fmt)) fmt args.

(** ** The script *)

(** Select the number of strands in each wire pair: 7 strands. *)
Definition STRANDING_FACTOR : R := 0.939.

(** Material name, dielectric constant. *)
Definition DIELECTRIC_LIST : list (string * R) :=
  [ ("ECTFE/Halar"%string,      2.60);
    ("PFA/Teflon"%string,       2.15);
    ("PVC"%string,              5.00);
    ("PVC(Semi-rigid)"%string,  3.60);
    ("PVDF/Kynar/SOLEF"%string, 7.70);
    ("Polyethylene"%string,     2.29);
    ("Polypropylene"%string,    2.25);
    ("Polyurethane"%string,     6.50);
    ("Rubber(butyl)"%string,    4.0);
    ("Rubber(natural)"%string,  5.0);
    ("Rubber(SBR)"%string,      4.0);
    ("Rubber(silicone)"%string, 3.1);
    ("TFE/Teflon"%string,       2.1);
    ("TPE"%string,              5.0);
    ("Teflon"%string,           2.10);
    ("Tefzel"%string,           2.6) ].

(** Gauge, stranding, diameter in inches. *)
Definition CONDUCTOR_LIST : list (string * string * R) :=
  [ ("AWG30"%string, "7/38"%string, 0.012);
    ("AWG28"%string, "7/36"%string, 0.015);
    ("AWG26"%string, "7/34"%string, 0.019);
    ("AWG24"%string, "7/32"%string, 0.024);
    ("AWG22"%string, "7/30"%string, 0.030) ].

(** Thickness in inches. *)
Definition INSULATION_THICKNESS_LIST : list R :=
  [ 0.006; 0.010; 0.011; 0.012; 0.015; 0.017;
    0.018; 0.019; 0.030; 0.032; 0.045; 0.060 ].

(** 25.4 mm per inch and 12 inches per foot. *)
Definition MM_PER_FT : R := 25.4 * 12.0.

Definition LINE_FORMAT : string :=
  Eval cbv in
    ("%s %1.3f inch thick %s = %5.2f pf/ft %5.4f pf/mm "
     ++ "(General Cable) %5.2f pf/ft %5.4f pf/mm (Howard Johnson)")%string.

(** The four values of one table row. *)
Record row : Type := mkRow {
  capacitance : R;
  capacitance_mm : R;
  capacitance2 : R;
  capacitance2_mm : R
}.

Section Script.

(** The active stranding factor, a constant of the script. *)
Variable stranding_factor : R.

Local Open Scope py_scope.

(** The assignments of the innermost loop body. *)
Definition row_of (material : string * R) (conductor : string * string * R)
           (thickness : R) : result row :=
  (* General Cable capacitance equation (in pico Farads per foot) *)
  a1 <- py_div (1.3 * ((2.0 * thickness) + snd conductor))
               (stranding_factor * snd conductor) ;;
  l1 <- math_log10 a1 ;;
  capacitance <- py_div (2.2 * snd material) l1 ;;
  capacitance_mm <- py_div capacitance MM_PER_FT ;;
  (* Howard Johnson capacitance equation (in pico Farads per foot) *)
  a2 <- py_div (2 * ((2.0 * thickness) + snd conductor))
               (stranding_factor * snd conductor) ;;
  l2 <- math_log a2 ;;
  q2 <- py_div (12 * 0.7065) l2 ;;
  let capacitance2 := q2 * snd material in
  capacitance2_mm <- py_div capacitance2 MM_PER_FT ;;
  Ok (mkRow capacitance capacitance_mm capacitance2 capacitance2_mm).

(** The argument tuple of the [%] operator. *)
Definition line_args (material : string * R) (conductor : string * string * R)
           (thickness : R) (r : row) : list pyval :=
  [ PyStr (fst (fst conductor)); PyFloat thickness; PyStr (fst material);
    PyFloat (capacitance r); PyFloat (capacitance_mm r);
    PyFloat (capacitance2 r); PyFloat (capacitance2_mm r) ].

Definition loop_body (material : string * R) (conductor : string * string * R)
           (thickness : R) : M unit :=
  let* r := lift (row_of material conductor thickness) in
  let* s := lift (py_format LINE_FORMAT (line_args material conductor thickness r)) in
  print s.

Definition main_loops : M unit :=
  for_each DIELECTRIC_LIST (fun material =>
    for_each CONDUCTOR_LIST (fun conductor =>
      for_each INSULATION_THICKNESS_LIST (fun thickness =>
        loop_body material conductor thickness))).

Definition script : M unit :=
  main_loops ;;;
  (* Set a Unix "success" exit code *)
  let exit_code := 0%Z in
  (* Return exit_code *)
  sys_exit exit_code.

End Script.

(** The interpreter: the script starts on an empty standard output; the
    process status is the [SystemExit] code, 0 when the script falls off
    its end and 1 for any other uncaught exception. *)
Definition run (p : M unit) : list string * Z :=
  match p [] with
  | (out, Ok tt) => (out, 0%Z)
  | (out, Raise (SystemExit code)) => (out, code)
  | (out, Raise _) => (out, 1%Z)
  end.

Definition utp : list string * Z := run (script STRANDING_FACTOR).

(** ** The formulas as the specification writes them *)

(** General Cable: [(2.2 d) / log10((1.3 (2t + D)) / (k D))]. *)
Definition general_cable (d D t k : R) : R :=
  (2.2 * d) / log10 ((1.3 * (2 * t + D)) / (k * D)).

(** Howard Johnson: [((12 * 0.7065) / ln((2 (2t + D)) / (k D))) d]. *)
Definition howard_johnson (d D t k : R) : R :=
  ((12 * 0.7065) / ln ((2 * (2 * t + D)) / (k * D))) * d.

(** The row the specification prescribes for one combination. *)
Definition expected_row (k : R) (material : string * R)
           (conductor : string * string * R) (thickness : R) : row :=
  let d := snd material in
  let D := snd conductor in
  mkRow (general_cable d D thickness k) (general_cable d D thickness k / 304.8)
        (howard_johnson d D thickness k) (howard_johnson d D thickness k / 304.8).

(** One output line, field by field. *)
Definition expected_line (material : string * R) (conductor : string * string * R)
           (thickness : R) (r : row) : string :=
  (fst (fst conductor) ++ " " ++ rjust 1 (format_f 3 thickness) ++ " inch thick "
   ++ fst material ++ " = "
   ++ rjust 5 (format_f 2 (capacitance r)) ++ " pf/ft "
   ++ rjust 5 (format_f 4 (capacitance_mm r)) ++ " pf/mm (General Cable) "
   ++ rjust 5 (format_f 2 (capacitance2 r)) ++ " pf/ft "
   ++ rjust 5 (format_f 4 (capacitance2_mm r)) ++ " pf/mm (Howard Johnson)")%string.

(** The table in loop order: material, then conductor, then thickness. *)
Definition expected_output (k : R) : list string :=
  flat_map (fun material =>
    flat_map (fun conductor =>
      flat_map (fun thickness =>
        [expected_line material conductor thickness
           (expected_row k material conductor thickness)])
        INSULATION_THICKNESS_LIST)
      CONDUCTOR_LIST)
    DIELECTRIC_LIST.

(** The argument of either logarithm: [c] is 1.3 or 2. *)
Definition log_arg (c k D t : R) : R := (c * (2 * t + D)) / (k * D).

(** ** Predicates of the statements *)



(** An uncaught arithmetic fault of the loop body. *)
Definition arithmetic_fault (e : exn) : Prop :=
  e = ValueError \/ e = ZeroDivisionError.

(** [x] is [y] up to the relative tolerance [tol]. *)
Definition within_rel (tol x y : R) : Prop := Rabs (x - y) <= tol * Rabs y.

(** ** The loop body in binary64 *)

Module B64.

Import Floats.

(** The product as the interpreter evaluates it, both literals read to
    the nearest binary64 value. *)
#[warnings="-inexact-float"]
Definition MM_PER_FT : float := (25.4 * 12.0)%float.

(** The literal [304.8], read to the nearest binary64 value. *)
#[warnings="-inexact-float"]
Definition literal_304_8 : float := 304.8%float.

(** The real number a finite binary64 value stands for. *)
Definition to_R (x : float) : option R :=
  match Prim2SF x with
  | S754_zero _ => Some 0
  | S754_finite s m e =>
      Some (IZR (if s then Z.neg m else Z.pos m) * powerRZ 2 e)
  | S754_infinity _ | S754_nan => None
  end.

(** [a / b] on binary64 floats: a zero divisor of either sign raises. *)
Definition py_div (a b : float) : result float :=
  if (b =? 0)%float then Raise ZeroDivisionError else Ok (a / b)%float.

(** Select the number of strands in each wire pair: 7 strands. *)
#[warnings="-inexact-float"]
Definition STRANDING_FACTOR : float := 0.939%float.

(** The four values of one table row, as binary64 floats. *)
Record row : Type := mkRow {
  capacitance : float;
  capacitance_mm : float;
  capacitance2 : float;
  capacitance2_mm : float
}.

Section Libm.

(** The C library's [log10] and [log], which [math.log10] and [math.log]
    call; they are not part of the script. *)
Variables libm_log10 libm_log : float -> float.

(** [math.log10(x)]: a math domain error unless [x > 0] or [x] is a NaN. *)
Definition math_log10 (x : float) : result float :=
  if (x <=? 0)%float then Raise ValueError else Ok (libm_log10 x).

(** [math.log(x)], one argument. *)
Definition math_log (x : float) : result float :=
  if (x <=? 0)%float then Raise ValueError else Ok (libm_log x).

Variable stranding_factor : float.

(** The assignments of the innermost loop body, operation by operation in
    binary64. *)
#[warnings="-inexact-float"]
Definition row_of (material : string * float) (conductor : string * string * float)
           (thickness : float) : result row :=
  (* General Cable capacitance equation (in pico Farads per foot) *)
  rbind (py_div (1.3 * ((2.0 * thickness) + snd conductor))%float
                (stranding_factor * snd conductor)%float) (fun a1 =>
  rbind (math_log10 a1) (fun l1 =>
  rbind (py_div (2.2 * snd material)%float l1) (fun capacitance =>
  rbind (py_div capacitance MM_PER_FT) (fun capacitance_mm =>
  (* Howard Johnson capacitance equation (in pico Farads per foot) *)
  rbind (py_div (2 * ((2.0 * thickness) + snd conductor))%float
                (stranding_factor * snd conductor)%float) (fun a2 =>
  rbind (math_log a2) (fun l2 =>
  rbind (py_div (12 * 0.7065)%float l2) (fun q2 =>
  let capacitance2 := (q2 * snd material)%float in
  rbind (py_div capacitance2 MM_PER_FT) (fun capacitance2_mm =>
  Ok (mkRow capacitance capacitance_mm capacitance2 capacitance2_mm))))))))).

End Libm.

(** The two formulas in binary64, operation by operation. *)
#[warnings="-inexact-float"]
Definition general_cable (libm_log10 : float -> float) (k d D t : float) : float :=
  ((2.2 * d) / libm_log10 ((1.3 * ((2.0 * t) + D)) / (k * D)))%float.

#[warnings="-inexact-float"]
Definition howard_johnson (libm_log : float -> float) (k d D t : float) : float :=
  (((12 * 0.7065) / libm_log ((2 * ((2.0 * t) + D)) / (k * D))) * d)%float.

(** The first entries of the three tables, their literals read to the
    nearest binary64 value. *)
#[warnings="-inexact-float"]
Definition first_material : string * float := ("ECTFE/Halar"%string, 2.60%float).

#[warnings="-inexact-float"]
Definition first_conductor : string * string * float :=
  ("AWG30"%string, "7/38"%string, 0.012%float).

#[warnings="-inexact-float"]
Definition first_thickness : float := 0.006%float.

(** Gauge, stranding, diameter in inches, the literals read to the nearest
    binary64 value. *)
#[warnings="-inexact-float"]
Definition CONDUCTOR_LIST : list (string * string * float) :=
  [ ("AWG30"%string, "7/38"%string, 0.012%float);
    ("AWG28"%string, "7/36"%string, 0.015%float);
    ("AWG26"%string, "7/34"%string, 0.019%float);
    ("AWG24"%string, "7/32"%string, 0.024%float);
    ("AWG22"%string, "7/30"%string, 0.030%float) ].

(** Thickness in inches. *)
#[warnings="-inexact-float"]
Definition INSULATION_THICKNESS_LIST : list float :=
  [ 0.006; 0.010; 0.011; 0.012; 0.015; 0.017;
    0.018; 0.019; 0.030; 0.032; 0.045; 0.060 ]%float.

(** Twice a float, an exact operation short of overflow. *)
Definition twice (x : float) : float := (2 * x)%float.

(** The floats between 2^-1000 and 2^1000. *)
Definition in_range (c : float) : bool :=
  ((0x1p-1000 <=? c) && (c <=? 0x1p+1000))%float.

(** The mantissa of [MM_PER_FT]: 5362098306337996 x 2^-44. *)
Definition MM_PER_FT_mantissa : positive := 5362098306337996%positive.

End B64.

(** The stranding factors the script lists, in its order: 1, 7, 19, 37, 61
    and 91 strands. *)
Definition STRANDING_FACTORS : list R :=
  [1.000; 0.939; 0.970; 0.980; 0.985; 0.988].

(** ** Fixed-point square roots, to enclose logarithms *)

(** Numbers are integers over [SCALE]. *)
Definition SCALE : Z := 10 ^ 30.

(** [n] square roots in a row, each rounded down. *)
Fixpoint root_lo (n : nat) (a : Z) : Z :=
  match n with
  | O => a
  | S n' => root_lo n' (Z.sqrt (a * SCALE))
  end.

(** [n] square roots in a row, each rounded up. *)
Fixpoint root_hi (n : nat) (a : Z) : Z :=
  match n with
  | O => a
  | S n' => root_hi n' (Z.sqrt (a * SCALE) + 1)
  end.

(** ** The loop body on arbitrary inputs *)

(** The first logarithm argument, as the script writes it. *)
Definition general_cable_arg (k D t : R) : R :=
  (1.3 * (2 * t + D)) / (k * D).

(** The second logarithm argument, as the script writes it. *)
Definition howard_johnson_arg (k D t : R) : R :=
  (2 * (2 * t + D)) / (k * D).

(** The loop body returns a row: no division by zero, no domain error. *)
Definition row_defined (k D t : R) : Prop :=
  k * D <> 0 /\ 0 < general_cable_arg k D t /\
  general_cable_arg k D t <> 1 /\ howard_johnson_arg k D t <> 1.

(** ** Binary64 division by [MM_PER_FT] *)

Module B64Facts.

Import Floats.

Lemma digits2_bounds (p : positive) :
  (2 ^ (Zpos (digits2_pos p) - 1) <= Zpos p < 2 ^ Zpos (digits2_pos p))%Z.
Proof.
  induction p as [p IH | p IH |]; cbn [digits2_pos].
  - rewrite Pos2Z.inj_succ.
    replace (Z.succ (Zpos (digits2_pos p)) - 1)%Z
      with (Z.succ (Zpos (digits2_pos p) - 1)) by lia.
    rewrite !Z.pow_succ_r by lia. lia.
  - rewrite Pos2Z.inj_succ.
    replace (Z.succ (Zpos (digits2_pos p)) - 1)%Z
      with (Z.succ (Zpos (digits2_pos p) - 1)) by lia.
    rewrite !Z.pow_succ_r by lia. lia.
  - cbn. lia.
Qed.

Lemma digits2_unique (p : positive) (d : Z) :
  (2 ^ (d - 1) <= Zpos p < 2 ^ d)%Z -> Zpos (digits2_pos p) = d.
Proof.
  intros [Hlo Hhi]. pose proof (digits2_bounds p) as [Blo Bhi].
  set (n := Zpos (digits2_pos p)) in *.
  assert (Hn : (0 < n)%Z) by (unfold n; lia).
  destruct (Z.lt_trichotomy n d) as [Hlt | [Heq | Hgt]]; [| exact Heq |].
  - exfalso.
    assert (H : (2 ^ n <= 2 ^ (d - 1))%Z) by (apply Z.pow_le_mono_r; lia). lia.
  - exfalso.
    assert (Hd : (0 <= d)%Z).
    { destruct (Z.lt_ge_cases d 0) as [Hneg | Hok]; [| exact Hok].
      rewrite (Z.pow_neg_r 2 d) in Hhi by exact Hneg. lia. }
    assert (H : (2 ^ d <= 2 ^ (n - 1))%Z) by (apply Z.pow_le_mono_r; lia). lia.
Qed.

Lemma round_nearest_even_cases (m : Z) (l : location) :
  round_nearest_even m l = m \/ round_nearest_even m l = (m + 1)%Z.
Proof.
  destruct l as [| []]; cbn [round_nearest_even]; auto.
  destruct (Z.even m); auto.
Qed.

(** A mantissa of 53 bits is kept as it is. *)
Lemma shr_fexp_noshift (p : positive) (e : Z) (l : location) :
  Zpos (digits2_pos p) = 53%Z -> (-1074 <= e)%Z ->
  shr_fexp prec emax (Zpos p) e l = (shr_record_of_loc (Zpos p) l, e).
Proof.
  intros Hd He. unfold shr_fexp, Zdigits2. rewrite Hd.
  unfold fexp, SpecFloat.emin, prec, emax.
  replace (Z.max (53 + e - 53) (3 - 1024 - 53) - e)%Z with 0%Z by lia.
  reflexivity.
Qed.

(** A mantissa of 54 bits loses its last bit. *)
Lemma shr_fexp_shift1 (p : positive) (e : Z) (l : location) :
  Zpos (digits2_pos p) = 54%Z -> (-1074 <= e)%Z ->
  shr_fexp prec emax (Zpos p) e l
  = (shr_1 (shr_record_of_loc (Zpos p) l), (e + 1)%Z).
Proof.
  intros Hd He. unfold shr_fexp, Zdigits2. rewrite Hd.
  unfold fexp, SpecFloat.emin, prec, emax.
  replace (Z.max (54 + e - 53) (3 - 1024 - 53) - e)%Z with 1%Z by lia.
  reflexivity.
Qed.

Lemma shr_1_pos (p : positive) (l : location) :
  (2 <= Zpos p)%Z ->
  exists p', shr_m (shr_1 (shr_record_of_loc (Zpos p) l)) = Zpos p' /\
             (Zpos p = 2 * Zpos p' \/ Zpos p = 2 * Zpos p' + 1)%Z.
Proof.
  intros Hp. destruct p as [p | p |]; [| | lia];
    exists p; destruct l as [| []]; cbn; split; auto; lia.
Qed.

(** Rounding to nearest even of a quotient [q] of 53 or 54 bits moves it by
    at most two units. *)
Lemma binary_round_aux_53_54 (q : positive) (e : Z) (l : location) :
  (2 ^ 52 <= Zpos q < 2 ^ 54 - 2)%Z -> (-1074 <= e <= 970)%Z ->
  exists mz sh,
    binary_round_aux prec emax false (Zpos q) e l = S754_finite false mz (e + sh) /\
    (0 <= sh <= 1)%Z /\
    (Zpos q - 1 <= Zpos mz * 2 ^ sh <= Zpos q + 2)%Z /\
    (2 ^ 52 <= Zpos mz)%Z.
Proof.
  intros [Hlo Hhi] He.
  assert (Hle : forall e', (e' <= 971)%Z -> (e' <=? emax - prec)%Z = true)
    by (intros e' H'; apply Z.leb_le; unfold emax, prec; lia).
  destruct (Z.lt_ge_cases (Zpos q) (2 ^ 53)) as [H53 | H54].
  - assert (Hd : Zpos (digits2_pos q) = 53%Z) by (apply digits2_unique; lia).
    unfold binary_round_aux. rewrite (shr_fexp_noshift q e l Hd) by lia.
    assert (Hloc : loc_of_shr_record (shr_record_of_loc (Zpos q) l) = l)
      by (destruct l as [| []]; reflexivity).
    assert (Hm : shr_m (shr_record_of_loc (Zpos q) l) = Zpos q)
      by (destruct l as [| []]; reflexivity).
    rewrite Hloc, Hm.
    destruct (round_nearest_even_cases (Zpos q) l) as [-> | ->].
    + rewrite (shr_fexp_noshift q e loc_Exact Hd) by lia.
      cbn [shr_record_of_loc shr_m]. rewrite Hle by lia.
      exists q, 0%Z. rewrite Z.add_0_r. repeat split; lia.
    + assert (Hq1 : (Zpos q + 1 = Zpos (q + 1))%Z) by lia. rewrite Hq1.
      destruct (Z.lt_ge_cases (Zpos q + 1) (2 ^ 53)) as [Hs | Hb].
      * assert (Hd1 : Zpos (digits2_pos (q + 1)) = 53%Z) by (apply digits2_unique; lia).
        rewrite (shr_fexp_noshift (q + 1) e loc_Exact Hd1) by lia.
        cbn [shr_record_of_loc shr_m]. rewrite Hle by lia.
        exists (q + 1)%positive, 0%Z. rewrite Z.add_0_r. repeat split; lia.
      * assert (Hd1 : Zpos (digits2_pos (q + 1)) = 54%Z) by (apply digits2_unique; lia).
        rewrite (shr_fexp_shift1 (q + 1) e loc_Exact Hd1) by lia.
        destruct (shr_1_pos (q + 1) loc_Exact ltac:(lia)) as (p' & Hp' & Hpar).
        rewrite Hp', Hle by lia.
        exists p', 1%Z. repeat split; lia.
  - assert (Hd : Zpos (digits2_pos q) = 54%Z) by (apply digits2_unique; lia).
    unfold binary_round_aux. rewrite (shr_fexp_shift1 q e l Hd) by lia.
    destruct (shr_1_pos q l ltac:(lia)) as (p' & Hp' & Hpar).
    rewrite Hp'.
    destruct (round_nearest_even_cases (Zpos p')
                (loc_of_shr_record (shr_1 (shr_record_of_loc (Zpos q) l))))
      as [-> | ->].
    + assert (Hd1 : Zpos (digits2_pos p') = 53%Z) by (apply digits2_unique; lia).
      rewrite (shr_fexp_noshift p' (e + 1) loc_Exact Hd1) by lia.
      cbn [shr_record_of_loc shr_m]. rewrite Hle by lia.
      exists p', 1%Z. repeat split; lia.
    + assert (Hq1 : (Zpos p' + 1 = Zpos (p' + 1))%Z) by lia. rewrite Hq1.
      assert (Hd1 : Zpos (digits2_pos (p' + 1)) = 53%Z) by (apply digits2_unique; lia).
      rewrite (shr_fexp_noshift (p' + 1) (e + 1) loc_Exact Hd1) by lia.
      cbn [shr_record_of_loc shr_m]. rewrite Hle by lia.
      exists (p' + 1)%positive, 1%Z. repeat split; lia.
Qed.

(** A float between 2^-1000 and 2^1000 is positive and normal. *)
Lemma in_range_finite (c : float) :
  B64.in_range c = true ->
  exists mx ex, Prim2SF c = S754_finite false mx ex /\
                Zpos (digits2_pos mx) = 53%Z /\ (-1052 <= ex <= 948)%Z.
Proof.
  unfold B64.in_range. intros H. apply andb_prop in H as [Hlo Hhi].
  rewrite leb_spec in Hlo, Hhi.
  replace (Prim2SF 0x1p-1000) with (S754_finite false 4503599627370496 (-1052)) in Hlo
    by (vm_compute; reflexivity).
  replace (Prim2SF 0x1p+1000) with (S754_finite false 4503599627370496 948) in Hhi
    by (vm_compute; reflexivity).
  pose proof (Prim2SF_valid c) as Hv.
  destruct (Prim2SF c) as [s | s | | s m e].
  - destruct s; cbn in Hlo; discriminate.
  - destruct s; cbn in Hlo, Hhi; discriminate.
  - cbn in Hlo; discriminate.
  - destruct s; [cbn in Hlo; discriminate |].
    unfold SFleb, SFcompare in Hlo, Hhi.
    assert (He1 : (-1052 <= e)%Z).
    { destruct (Z.compare_spec (-1052) e); try lia; discriminate. }
    assert (He2 : (e <= 948)%Z).
    { destruct (Z.compare_spec e 948); try lia; discriminate. }
    exists m, e. split; [reflexivity |]. split; [| lia].
    unfold SpecFloat.valid_binary, bounded, canonical_mantissa in Hv.
    apply andb_prop in Hv as [Hc _]. apply Z.eqb_eq in Hc.
    unfold fexp, SpecFloat.emin, prec, emax in Hc. lia.
Qed.

(** The quotient of a normal float by [MM_PER_FT], as the division of the
    mantissas. *)
Lemma SFdiv_MM_PER_FT (mx : positive) (ex : Z) :
  Zpos (digits2_pos mx) = 53%Z -> (-1060 <= ex <= 970)%Z ->
  exists mz sh q r,
    SF64div (S754_finite false mx ex) (S754_finite false B64.MM_PER_FT_mantissa (-44))
    = S754_finite false mz (ex - 9 + sh) /\
    (0 <= sh <= 1)%Z /\
    (Zpos mx * 2 ^ 53 = Zpos B64.MM_PER_FT_mantissa * q + r)%Z /\
    (0 <= r < Zpos B64.MM_PER_FT_mantissa)%Z /\
    (2 ^ 52 <= q)%Z /\
    (q - 1 <= Zpos mz * 2 ^ sh <= q + 2)%Z.
Proof.
  intros Hd He.
  pose proof (digits2_bounds mx) as Hmx. rewrite Hd in Hmx.
  change (2 ^ (53 - 1))%Z with (2 ^ 52)%Z in Hmx.
  unfold SF64div, SFdiv, SFdiv_core_binary, Zdigits2. rewrite Hd.
  change (Zpos (digits2_pos B64.MM_PER_FT_mantissa)) with 53%Z.
  unfold fexp, SpecFloat.emin, prec, emax.
  replace (Z.min (Z.max (53 + ex - (53 + -44) - 53) (3 - 1024 - 53)) (ex - -44))%Z
    with (ex - 9)%Z by lia.
  replace (ex - -44 - (ex - 9))%Z with 53%Z by lia.
  rewrite Z.shiftl_mul_pow2 by lia.
  pose proof (Z.div_eucl_eq (Zpos mx * 2 ^ 53) (Zpos B64.MM_PER_FT_mantissa)
                ltac:(discriminate)) as Heq.
  pose proof (Z.mod_pos_bound (Zpos mx * 2 ^ 53) (Zpos B64.MM_PER_FT_mantissa)
                ltac:(reflexivity)) as Hr.
  unfold Z.modulo in Hr.
  destruct (Z.div_eucl (Zpos mx * 2 ^ 53) (Zpos B64.MM_PER_FT_mantissa)) as [q r].
  unfold B64.MM_PER_FT_mantissa in *.
  assert (Hq : (2 ^ 52 <= q < 2 ^ 54 - 2)%Z).
  { change (2 ^ 52)%Z with 4503599627370496%Z in *.
    change (2 ^ 53)%Z with 9007199254740992%Z in *.
    change (2 ^ 54)%Z with 18014398509481984%Z. lia. }
  destruct q as [| qp | qp]; [lia | | lia].
  cbn [xorb].
  destruct (binary_round_aux_53_54 qp (ex - 9) (new_location 5362098306337996 r) Hq
              ltac:(lia)) as (mz & sh & Hres & Hsh & Hb & _).
  fold prec emax. rewrite Hres.
  exists mz, sh, (Zpos qp), r.
  repeat split; try assumption; try (apply Hb); try (apply Hr); try (apply Hq); lia.
Qed.

Lemma quotient_within (P a ms qr rr : R) :
  0 < P ->
  a * 9007199254740992 = 5362098306337996 * qr + rr ->
  0 <= rr < 5362098306337996 ->
  4503599627370496 <= qr ->
  qr - 1 <= ms <= qr + 2 ->
  within_rel 1e-9 (ms * P) (a * (P * 512) / 304.8).
Proof.
  intros HP Ha Hr Hq Hms. unfold within_rel.
  set (y := (5362098306337996 * qr + rr) / (17592186044416 * 304.8)).
  assert (Hy : a * (P * 512) / 304.8 = y * P).
  { unfold y. rewrite <- Ha. field; lra. }
  rewrite Hy.
  assert (Hy0 : 0 < y) by (unfold y; lra).
  assert (Hz : - (1e-9 * y) <= ms - y <= 1e-9 * y) by (unfold y; lra).
  replace (ms * P - y * P) with ((ms - y) * P) by ring.
  rewrite !Rabs_mult, (Rabs_pos_eq P), (Rabs_pos_eq y) by lra.
  rewrite <- Rmult_assoc. apply Rmult_le_compat_r; [lra |].
  apply Rabs_le. lra.
Qed.

(** The binary64 quotient of any float between 2^-1000 and 2^1000 by the
    binary64 [MM_PER_FT] is within 1e-9 of its real quotient by 304.8. *)
Lemma div_MM_PER_FT_accuracy (c : float) :
  B64.in_range c = true ->
  exists x q,
    B64.to_R c = Some x /\ B64.to_R (c / B64.MM_PER_FT) = Some q /\ 0 < x /\
    within_rel 1e-9 q (x / 304.8).
Proof.
  intros Hc. destruct (in_range_finite c Hc) as (mx & ex & Hx & Hd & He).
  destruct (SFdiv_MM_PER_FT mx ex Hd ltac:(lia))
    as (mz & sh & qz & r & Hdiv & Hsh & Heq & Hr & Hq & Hb).
  unfold B64.to_R. rewrite div_spec, Hx.
  replace (Prim2SF B64.MM_PER_FT)
    with (S754_finite false B64.MM_PER_FT_mantissa (-44)) by (vm_compute; reflexivity).
  rewrite Hdiv.
  eexists. eexists. split; [reflexivity |]. split; [reflexivity |].
  set (P := powerRZ 2 (ex - 9)).
  assert (HP : 0 < P) by (apply powerRZ_lt; lra).
  assert (E1 : powerRZ 2 ex = P * 512).
  { unfold P. replace ex with (ex - 9 + 9)%Z at 1 by lia.
    rewrite powerRZ_add by lra. f_equal. simpl. lra. }
  assert (Hmx : 0 < IZR (Zpos mx)) by (apply IZR_lt; lia).
  split; [rewrite E1; apply Rmult_lt_0_compat; lra |].
  rewrite E1, powerRZ_add by lra. fold P.
  apply IZR_le in Hq. apply (f_equal IZR) in Heq.
  rewrite plus_IZR, !mult_IZR in Heq.
  destruct Hr as [Hr1 Hr2]. apply IZR_le in Hr1. apply IZR_lt in Hr2.
  destruct Hb as [Hb1 Hb2]. apply IZR_le in Hb1, Hb2.
  rewrite minus_IZR in Hb1. rewrite plus_IZR in Hb2. rewrite mult_IZR in Hb1, Hb2.
  assert (Hs : IZR (2 ^ sh) = powerRZ 2 sh).
  { assert (Hcase : sh = 0%Z \/ sh = 1%Z) by lia.
    destruct Hcase as [-> | ->]; simpl; lra. }
  rewrite Hs in Hb1, Hb2.
  replace (IZR (2 ^ 53)) with 9007199254740992 in Heq by (simpl; lra).
  replace (IZR (2 ^ 52)) with 4503599627370496 in Hq by (simpl; lra).
  unfold B64.MM_PER_FT_mantissa in *.
  replace (IZR (Zpos mz) * (P * powerRZ 2 sh))
    with (IZR (Zpos mz) * powerRZ 2 sh * P) by ring.
  apply quotient_within with (qr := IZR qz) (rr := IZR r); try assumption; lra.
Qed.

Lemma ltb_irrefl (x : float) : (x <? x)%float = false.
Proof.
  rewrite ltb_spec. unfold SFltb.
  destruct (Prim2SF x) as [s | s | | s m e]; cbn [SFcompare].
  - reflexivity.
  - destruct s; reflexivity.
  - reflexivity.
  - rewrite Z.compare_refl, Pos.compare_cont_refl. destruct s; reflexivity.
Qed.

(** What the binary64 loop body has computed when it returns a row. *)
Lemma row_of_inv (libm_log10 libm_log : float -> float) (k : float)
      (material : string * float) (conductor : string * string * float)
      (thickness : float) (r : B64.row) :
  B64.row_of libm_log10 libm_log k material conductor thickness = Ok r ->
  B64.capacitance r
  = B64.general_cable libm_log10 k (snd material) (snd conductor) thickness /\
  B64.capacitance_mm r = (B64.capacitance r / B64.MM_PER_FT)%float /\
  B64.capacitance2 r
  = B64.howard_johnson libm_log k (snd material) (snd conductor) thickness /\
  B64.capacitance2_mm r = (B64.capacitance2 r / B64.MM_PER_FT)%float.
Proof.
  unfold B64.row_of, B64.py_div, B64.math_log10, B64.math_log.
  repeat (match goal with
          | |- context [if ?b then Raise _ else _] => destruct b
          end; cbn [rbind]; try discriminate).
  intros [= <-].
  cbn [B64.capacitance B64.capacitance_mm B64.capacitance2 B64.capacitance2_mm].
  repeat split.
Qed.

(** Doubling the diameter and the thickness of a table entry, where the
    tables hold the doubles, leaves both logarithm arguments as they are,
    bit for bit: the row is the same whatever the C library returns. *)
Lemma row_of_twice (libm_log10 libm_log : float -> float) (material : string * float)
      (c c' : string * string * float) (t t' : float) :
  In c B64.CONDUCTOR_LIST -> In c' B64.CONDUCTOR_LIST ->
  In t B64.INSULATION_THICKNESS_LIST -> In t' B64.INSULATION_THICKNESS_LIST ->
  (snd c' =? B64.twice (snd c))%float = true ->
  (t' =? B64.twice t)%float = true ->
  B64.row_of libm_log10 libm_log B64.STRANDING_FACTOR material c' t'
  = B64.row_of libm_log10 libm_log B64.STRANDING_FACTOR material c t.
Proof.
  intros Hc Hc' Ht Ht' Ec Et.
  cbn [In B64.CONDUCTOR_LIST] in Hc, Hc'.
  destruct Hc as [<- | [<- | [<- | [<- | [<- | []]]]]];
    destruct Hc' as [<- | [<- | [<- | [<- | [<- | []]]]]];
    cbn [snd] in Ec; try (vm_compute in Ec; discriminate Ec); clear Ec;
    cbn [In B64.INSULATION_THICKNESS_LIST] in Ht, Ht';
    destruct Ht as [<- | [<- | [<- | [<- | [<- | [<- | [<- | [<- | [<- | [<- | [<- | [<- | []]]]]]]]]]]]];
    destruct Ht' as [<- | [<- | [<- | [<- | [<- | [<- | [<- | [<- | [<- | [<- | [<- | [<- | []]]]]]]]]]]]];
    try (vm_compute in Et; discriminate Et); clear Et;
    vm_compute; reflexivity.
Qed.

End B64Facts.

(** ** The primitives away from their error cases *)

Lemma py_div_ok (a b : R) : b <> 0 -> py_div a b = Ok (a / b).
Proof.
  intros Hb. unfold py_div. destruct (Req_dec_T b 0) as [E | _]; [contradiction | reflexivity].
Qed.

Lemma py_div_zero (a : R) : py_div a 0 = Raise ZeroDivisionError.
Proof.
  unfold py_div. destruct (Req_dec_T 0 0) as [_ | N]; [reflexivity | now elim N].
Qed.

Lemma math_log10_ok (x : R) : 0 < x -> math_log10 x = Ok (log10 x).
Proof.
  intros Hx. unfold math_log10. destruct (Rle_dec x 0) as [L | _]; [lra | reflexivity].
Qed.

Lemma math_log_ok (x : R) : 0 < x -> math_log x = Ok (ln x).
Proof.
  intros Hx. unfold math_log. destruct (Rle_dec x 0) as [L | _]; [lra | reflexivity].
Qed.

Lemma math_log10_domain (x : R) : x <= 0 -> math_log10 x = Raise ValueError.
Proof.
  intros Hx. unfold math_log10. destruct (Rle_dec x 0) as [_ | N]; [reflexivity | contradiction].
Qed.

(** ** Logarithms *)

Lemma ln_pos (x : R) : 1 < x -> 0 < ln x.
Proof.
  intros Hx. rewrite <- ln_1. apply ln_increasing; lra.
Qed.

Lemma ln_10_pos : 0 < ln 10.
Proof. apply ln_pos; lra. Qed.

Lemma log10_pos (x : R) : 1 < x -> 0 < log10 x.
Proof.
  intros Hx. unfold log10. apply Rdiv_lt_0_compat; [now apply ln_pos | exact ln_10_pos].
Qed.

Lemma log10_increasing (x y : R) : 0 < x -> x < y -> log10 x < log10 y.
Proof.
  intros Hx Hxy. unfold log10, Rdiv.
  apply Rmult_lt_compat_r.
  - apply Rinv_0_lt_compat, ln_10_pos.
  - now apply ln_increasing.
Qed.

(** The two logarithms differ away from 1: the base matters. *)
Lemma ln_neq_log10 (x : R) : 1 < x -> log10 x < ln x.
Proof.
  intros Hx. unfold log10.
  assert (H1 : 0 < ln x) by now apply ln_pos.
  assert (H10 : 1 < ln 10).
  { rewrite <- (ln_exp 1). apply ln_increasing; [apply exp_pos |].
    pose proof exp_le_3. lra. }
  apply Rmult_lt_reg_r with (ln 10); [lra |].
  unfold Rdiv. rewrite Rmult_assoc, Rinv_l by lra. nra.
Qed.

(** ** The logarithm arguments *)

Lemma log_arg_gt_1 (c k D t : R) :
  1 < c -> 0 < k <= 1 -> 0 < D -> 0 < t -> 1 < log_arg c k D t.
Proof.
  intros Hc Hk HD Ht. unfold log_arg.
  assert (HkD : 0 < k * D) by nra.
  apply Rmult_lt_reg_r with (k * D); [exact HkD |].
  unfold Rdiv. rewrite Rmult_assoc, Rinv_l by lra. nra.
Qed.

Lemma log_arg_decr_k (c k1 k2 D t : R) :
  0 < c -> 0 < D -> 0 < t -> 0 < k1 -> k1 < k2 ->
  log_arg c k2 D t < log_arg c k1 D t.
Proof.
  intros Hc HD Ht Hk1 Hk. unfold log_arg, Rdiv.
  assert (H1 : 0 < k1 * D) by nra.
  assert (H2 : k1 * D < k2 * D) by nra.
  apply Rmult_lt_compat_l; [nra |].
  apply Rinv_lt_contravar; [apply Rmult_lt_0_compat; lra | exact H2].
Qed.

Lemma log_arg_incr_t (c k D t1 t2 : R) :
  0 < c -> 0 < D -> 0 < k -> t1 < t2 ->
  log_arg c k D t1 < log_arg c k D t2.
Proof.
  intros Hc HD Hk Ht. unfold log_arg, Rdiv.
  apply Rmult_lt_compat_r; [apply Rinv_0_lt_compat; nra | nra].
Qed.

(** [a / x] is strictly decreasing in [x > 0] for [a > 0]. *)
Lemma div_lt_contravar (a x y : R) : 0 < a -> 0 < x -> x < y -> a / y < a / x.
Proof.
  intros Ha Hx Hxy. unfold Rdiv.
  apply Rmult_lt_compat_l; [exact Ha |].
  apply Rinv_lt_contravar; [apply Rmult_lt_0_compat; lra | exact Hxy].
Qed.

(** ** The loop body *)

Lemma MM_PER_FT_value : MM_PER_FT = 304.8.
Proof. unfold MM_PER_FT. lra. Qed.

Lemma row_of_ok (k : R) (material : string * R) (conductor : string * string * R)
      (thickness : R) :
  0 < k <= 1 -> 0 < snd conductor -> 0 < thickness ->
  row_of k material conductor thickness
  = Ok (expected_row k material conductor thickness).
Proof.
  intros Hk HD Ht. unfold row_of, expected_row, general_cable, howard_johnson.
  set (D := snd conductor) in *. set (d := snd material).
  assert (HkD : k * D <> 0) by nra.
  pose proof (log_arg_gt_1 1.3 k D thickness ltac:(lra) Hk HD Ht) as A1.
  pose proof (log_arg_gt_1 2 k D thickness ltac:(lra) Hk HD Ht) as A2.
  pose proof (log10_pos _ A1) as L1. pose proof (ln_pos _ A2) as L2.
  unfold log_arg in *.
  replace (2.0 * thickness) with (2 * thickness) by lra.
  rewrite !(py_div_ok _ _ HkD). cbn [rbind].
  rewrite math_log10_ok by lra. cbn [rbind].
  rewrite py_div_ok by lra. cbn [rbind].
  rewrite MM_PER_FT_value.
  rewrite py_div_ok by lra. cbn [rbind].
  rewrite math_log_ok by lra. cbn [rbind].
  rewrite py_div_ok by lra. cbn [rbind].
  rewrite py_div_ok by lra. cbn [rbind].
  reflexivity.
Qed.

Lemma py_format_line (g n : string) (t a b c d : R) :
  py_format LINE_FORMAT
    [PyStr g; PyFloat t; PyStr n; PyFloat a; PyFloat b; PyFloat c; PyFloat d]
  = Ok (g ++ " " ++ rjust 1 (format_f 3 t) ++ " inch thick " ++ n ++ " = "
        ++ rjust 5 (format_f 2 a) ++ " pf/ft " ++ rjust 5 (format_f 4 b)
        ++ " pf/mm (General Cable) "
        ++ rjust 5 (format_f 2 c) ++ " pf/ft " ++ rjust 5 (format_f 4 d)
        ++ " pf/mm (Howard Johnson)")%string.
Proof.
  cbv -[format_f rjust String.append].
  reflexivity.
Qed.

Lemma py_format_row (material : string * R) (conductor : string * string * R)
      (thickness : R) (r : row) :
  py_format LINE_FORMAT (line_args material conductor thickness r)
  = Ok (expected_line material conductor thickness r).
Proof.
  unfold line_args, expected_line. apply py_format_line.
Qed.

Lemma loop_body_ok (k : R) (material : string * R) (conductor : string * string * R)
      (thickness : R) (out : list string) :
  0 < k <= 1 -> 0 < snd conductor -> 0 < thickness ->
  loop_body k material conductor thickness out
  = (out ++ [expected_line material conductor thickness
               (expected_row k material conductor thickness)], Ok tt).
Proof.
  intros Hk HD Ht. unfold loop_body, bind, lift.
  rewrite row_of_ok by assumption.
  rewrite py_format_row. reflexivity.
Qed.

(** ** Loops that only print *)

Lemma for_each_emit {A} (xs : list A) (body : A -> M unit) (g : A -> list string) :
  (forall x out, In x xs -> body x out = (out ++ g x, Ok tt)) ->
  forall out, for_each xs body out = (out ++ flat_map g xs, Ok tt).
Proof.
  induction xs as [| x xs IH]; intros Hbody out; cbn [for_each flat_map].
  - unfold ret. now rewrite app_nil_r.
  - unfold bind. rewrite Hbody by (left; reflexivity).
    rewrite IH by (intros y o Hy; apply Hbody; right; exact Hy).
    now rewrite app_assoc.
Qed.

(** ** The tables *)

Lemma dielectric_positive : Forall (fun m => 0 < snd m) DIELECTRIC_LIST.
Proof. unfold DIELECTRIC_LIST. repeat constructor; cbn [snd]; lra. Qed.

Lemma conductor_positive : Forall (fun c => 0 < snd c) CONDUCTOR_LIST.
Proof. unfold CONDUCTOR_LIST. repeat constructor; cbn [snd]; lra. Qed.

Lemma thickness_positive : Forall (fun t => 0 < t) INSULATION_THICKNESS_LIST.
Proof. unfold INSULATION_THICKNESS_LIST. repeat constructor; lra. Qed.

Lemma stranding_factor_range : 0 < STRANDING_FACTOR <= 1.
Proof. unfold STRANDING_FACTOR. lra. Qed.

Lemma In_dielectric m : In m DIELECTRIC_LIST -> 0 < snd m.
Proof. apply (proj1 (Forall_forall _ _) dielectric_positive). Qed.

Lemma In_conductor c : In c CONDUCTOR_LIST -> 0 < snd c.
Proof. apply (proj1 (Forall_forall _ _) conductor_positive). Qed.

Lemma In_thickness t : In t INSULATION_THICKNESS_LIST -> 0 < t.
Proof. apply (proj1 (Forall_forall _ _) thickness_positive). Qed.

(** ** The whole run *)

Lemma main_loops_ok (k : R) (out : list string) :
  0 < k <= 1 ->
  main_loops k out = (out ++ expected_output k, Ok tt).
Proof.
  intros Hk. unfold main_loops, expected_output.
  apply for_each_emit. intros m o _.
  apply for_each_emit. intros c o' Hc.
  apply for_each_emit. intros t o'' Ht.
  apply loop_body_ok; [exact Hk | now apply In_conductor | now apply In_thickness].
Qed.

Lemma script_ok (k : R) :
  0 < k <= 1 -> run (script k) = (expected_output k, 0%Z).
Proof.
  intros Hk. unfold run, script, bind.
  rewrite main_loops_ok by exact Hk. reflexivity.
Qed.

Lemma utp_ok : utp = (expected_output STRANDING_FACTOR, 0%Z).
Proof. apply script_ok, stranding_factor_range. Qed.

Lemma expected_output_length (k : R) : List.length (expected_output k) = 960%nat.
Proof. reflexivity. Qed.

(** ** Positions in a table of equal-sized blocks *)

Lemma nth_error_flat_map_block {A B} (f : A -> list B) (n : nat) (xs : list A) :
  (forall x, In x xs -> List.length (f x) = n) ->
  forall i j x, nth_error xs i = Some x -> (j < n)%nat ->
  nth_error (flat_map f xs) (i * n + j) = nth_error (f x) j.
Proof.
  induction xs as [| y ys IH]; intros Hlen i j x Hi Hj.
  - destruct i; discriminate.
  - cbn [flat_map]. destruct i as [| i].
    + injection Hi as ->. cbn [Nat.mul Nat.add].
      apply nth_error_app1. rewrite Hlen by (left; reflexivity). exact Hj.
    + cbn [nth_error] in Hi.
      rewrite nth_error_app2 by (rewrite Hlen by (left; reflexivity); lia).
      rewrite Hlen by (left; reflexivity).
      replace (S i * n + j - n)%nat with (i * n + j)%nat by lia.
      apply IH; [intros z Hz; apply Hlen; right; exact Hz | exact Hi | exact Hj].
Qed.

Lemma expected_output_nth (k : R) (i j l : nat) material conductor thickness :
  nth_error DIELECTRIC_LIST i = Some material ->
  nth_error CONDUCTOR_LIST j = Some conductor ->
  nth_error INSULATION_THICKNESS_LIST l = Some thickness ->
  nth_error (expected_output k) (i * 60 + j * 12 + l)
  = Some (expected_line material conductor thickness
            (expected_row k material conductor thickness)).
Proof.
  intros Hi Hj Hl. unfold expected_output.
  assert (Hj5 : (j < List.length CONDUCTOR_LIST)%nat).
  { apply nth_error_Some. rewrite Hj. discriminate. }
  assert (Hl12 : (l < List.length INSULATION_THICKNESS_LIST)%nat).
  { apply nth_error_Some. rewrite Hl. discriminate. }
  cbn [List.length CONDUCTOR_LIST INSULATION_THICKNESS_LIST] in Hj5, Hl12.
  rewrite <- Nat.add_assoc.
  rewrite (nth_error_flat_map_block _ 60 DIELECTRIC_LIST) with (x := material);
    [| intros; reflexivity | exact Hi | lia].
  rewrite (nth_error_flat_map_block _ 12 CONDUCTOR_LIST) with (x := conductor);
    [| intros; reflexivity | exact Hj | exact Hl12].
  replace l with (l * 1 + 0)%nat by lia.
  rewrite (nth_error_flat_map_block _ 1 INSULATION_THICKNESS_LIST) with (x := thickness);
    [reflexivity | intros; reflexivity | exact Hl | lia].
Qed.

Lemma expected_output_In (k : R) (s : string) :
  In s (expected_output k) <->
  exists material conductor thickness,
    In material DIELECTRIC_LIST /\ In conductor CONDUCTOR_LIST /\
    In thickness INSULATION_THICKNESS_LIST /\
    s = expected_line material conductor thickness
          (expected_row k material conductor thickness).
Proof.
  unfold expected_output. split.
  - intros H. apply in_flat_map in H as (m & Hm & H).
    apply in_flat_map in H as (c & Hc & H).
    apply in_flat_map in H as (t & Ht & H).
    destruct H as [<- | []]. now exists m, c, t.
  - intros (m & c & t & Hm & Hc & Ht & ->).
    apply in_flat_map. exists m. split; [exact Hm |].
    apply in_flat_map. exists c. split; [exact Hc |].
    apply in_flat_map. exists t. split; [exact Ht | left; reflexivity].
Qed.

(** What the loop body does for one combination of the tables. *)
Lemma table_row (material : string * R) (conductor : string * string * R)
      (thickness : R) :
  In material DIELECTRIC_LIST -> In conductor CONDUCTOR_LIST ->
  In thickness INSULATION_THICKNESS_LIST ->
  row_of STRANDING_FACTOR material conductor thickness
  = Ok (expected_row STRANDING_FACTOR material conductor thickness)
  /\ In (expected_line material conductor thickness
           (expected_row STRANDING_FACTOR material conductor thickness))
        (fst utp).
Proof.
  intros Hm Hc Ht. split.
  - apply row_of_ok;
      [exact stranding_factor_range | now apply In_conductor | now apply In_thickness].
  - rewrite utp_ok. cbn [fst]. apply expected_output_In. now exists material, conductor, thickness.
Qed.

(** ** Monotonicity of the two formulas *)

Section Monotone.

Variables d D : R.
Hypothesis d_pos : 0 < d.
Hypothesis D_pos : 0 < D.

Lemma general_cable_pos (t k : R) :
  0 < t -> 0 < k <= 1 -> 0 < general_cable d D t k.
Proof.
  intros Ht Hk. unfold general_cable.
  apply Rdiv_lt_0_compat; [lra |].
  apply log10_pos, (log_arg_gt_1 1.3 k D t); lra.
Qed.

Lemma howard_johnson_pos (t k : R) :
  0 < t -> 0 < k <= 1 -> 0 < howard_johnson d D t k.
Proof.
  intros Ht Hk. unfold howard_johnson.
  apply Rmult_lt_0_compat; [| exact d_pos].
  apply Rdiv_lt_0_compat; [lra |].
  apply ln_pos, (log_arg_gt_1 2 k D t); lra.
Qed.

Lemma general_cable_incr_k (t k1 k2 : R) :
  0 < t -> 0 < k1 -> k1 < k2 -> k2 <= 1 ->
  general_cable d D t k1 < general_cable d D t k2.
Proof.
  intros Ht Hk1 Hk Hk2. unfold general_cable.
  pose proof (log_arg_gt_1 1.3 k2 D t ltac:(lra) ltac:(lra) D_pos Ht) as A2.
  pose proof (log_arg_decr_k 1.3 k1 k2 D t ltac:(lra) D_pos Ht Hk1 Hk) as A12.
  unfold log_arg in *.
  apply div_lt_contravar; [lra | now apply log10_pos |].
  apply log10_increasing; lra.
Qed.

Lemma howard_johnson_incr_k (t k1 k2 : R) :
  0 < t -> 0 < k1 -> k1 < k2 -> k2 <= 1 ->
  howard_johnson d D t k1 < howard_johnson d D t k2.
Proof.
  intros Ht Hk1 Hk Hk2. unfold howard_johnson.
  pose proof (log_arg_gt_1 2 k2 D t ltac:(lra) ltac:(lra) D_pos Ht) as A2.
  pose proof (log_arg_decr_k 2 k1 k2 D t ltac:(lra) D_pos Ht Hk1 Hk) as A12.
  unfold log_arg in *.
  apply Rmult_lt_compat_r; [exact d_pos |].
  apply div_lt_contravar; [lra | now apply ln_pos |].
  apply ln_increasing; lra.
Qed.

Lemma general_cable_decr_t (k t1 t2 : R) :
  0 < k <= 1 -> 0 < t1 -> t1 < t2 ->
  general_cable d D t2 k < general_cable d D t1 k.
Proof.
  intros Hk Ht1 Ht. unfold general_cable.
  pose proof (log_arg_gt_1 1.3 k D t1 ltac:(lra) Hk D_pos Ht1) as A1.
  pose proof (log_arg_incr_t 1.3 k D t1 t2 ltac:(lra) D_pos ltac:(lra) Ht) as A12.
  unfold log_arg in *.
  apply div_lt_contravar; [lra | now apply log10_pos |].
  apply log10_increasing; lra.
Qed.

Lemma howard_johnson_decr_t (k t1 t2 : R) :
  0 < k <= 1 -> 0 < t1 -> t1 < t2 ->
  howard_johnson d D t2 k < howard_johnson d D t1 k.
Proof.
  intros Hk Ht1 Ht. unfold howard_johnson.
  pose proof (log_arg_gt_1 2 k D t1 ltac:(lra) Hk D_pos Ht1) as A1.
  pose proof (log_arg_incr_t 2 k D t1 t2 ltac:(lra) D_pos ltac:(lra) Ht) as A12.
  unfold log_arg in *.
  apply Rmult_lt_compat_r; [exact d_pos |].
  apply div_lt_contravar; [lra | now apply ln_pos |].
  apply ln_increasing; lra.
Qed.

End Monotone.

Lemma per_mm_lt (x y : R) : x < y -> x / 304.8 < y / 304.8.
Proof. intros H. lra. Qed.

(** ** The claims *)

(** C1. For every material, conductor and thickness of the tables the loop
    body succeeds and the first capacitance it hands to [print] is
    [(2.2 d) / log10((1.3 (2t + D)) / (0.939 D))]; the line written for the
    combination carries that value, with two decimals, as its first numeric
    field after the [=]. *)
Theorem general_cable_printed_value :
  forall material conductor thickness,
    In material DIELECTRIC_LIST -> In conductor CONDUCTOR_LIST ->
    In thickness INSULATION_THICKNESS_LIST ->
    exists r s,
      row_of STRANDING_FACTOR material conductor thickness = Ok r /\
      capacitance r
      = (2.2 * snd material)
        / log10 ((1.3 * (2 * thickness + snd conductor)) / (0.939 * snd conductor)) /\
      py_format LINE_FORMAT (line_args material conductor thickness r) = Ok s /\
      In s (fst utp) /\
      s = (fst (fst conductor) ++ " " ++ rjust 1 (format_f 3 thickness) ++ " inch thick "
           ++ fst material ++ " = "
           ++ rjust 5 (format_f 2 ((2.2 * snd material)
                                    / log10 ((1.3 * (2 * thickness + snd conductor))
                                             / (0.939 * snd conductor)))) ++ " pf/ft "
           ++ rjust 5 (format_f 4 (capacitance_mm r)) ++ " pf/mm "
           ++ "(General Cable) "
           ++ rjust 5 (format_f 2 (capacitance2 r)) ++ " pf/ft "
           ++ rjust 5 (format_f 4 (capacitance2_mm r)) ++ " pf/mm "
           ++ "(Howard Johnson)")%string.
Proof.
  intros m c t Hm Hc Ht.
  destruct (table_row m c t Hm Hc Ht) as [Hrow Hin].
  eexists. eexists. split; [exact Hrow |].
  split; [reflexivity |].
  split; [apply py_format_row |]. split; [exact Hin | reflexivity].
Qed.

(** C2. For every material, conductor and thickness of the tables the
    second capacitance handed to [print] is
    [((12 * 0.7065) / ln((2 (2t + D)) / (0.939 D))) d] with the natural
    logarithm, it is not the value the base-10 logarithm would give, and
    the line written for the combination carries it, with two decimals, as
    its third numeric field, after [(General Cable)]. *)
Theorem howard_johnson_printed_value :
  forall material conductor thickness,
    In material DIELECTRIC_LIST -> In conductor CONDUCTOR_LIST ->
    In thickness INSULATION_THICKNESS_LIST ->
    exists r s,
      row_of STRANDING_FACTOR material conductor thickness = Ok r /\
      capacitance2 r
      = ((12 * 0.7065)
         / ln ((2 * (2 * thickness + snd conductor)) / (0.939 * snd conductor)))
        * snd material /\
      capacitance2 r
      <> ((12 * 0.7065)
          / log10 ((2 * (2 * thickness + snd conductor)) / (0.939 * snd conductor)))
         * snd material /\
      py_format LINE_FORMAT (line_args material conductor thickness r) = Ok s /\
      In s (fst utp) /\
      s = (fst (fst conductor) ++ " " ++ rjust 1 (format_f 3 thickness) ++ " inch thick "
           ++ fst material ++ " = "
           ++ rjust 5 (format_f 2 (capacitance r)) ++ " pf/ft "
           ++ rjust 5 (format_f 4 (capacitance_mm r)) ++ " pf/mm "
           ++ "(General Cable) "
           ++ rjust 5 (format_f 2 (((12 * 0.7065)
                                     / ln ((2 * (2 * thickness + snd conductor))
                                           / (0.939 * snd conductor)))
                                    * snd material)) ++ " pf/ft "
           ++ rjust 5 (format_f 4 (capacitance2_mm r)) ++ " pf/mm "
           ++ "(Howard Johnson)")%string.
Proof.
  intros m c t Hm Hc Ht.
  destruct (table_row m c t Hm Hc Ht) as [Hrow Hin].
  eexists. eexists. split; [exact Hrow |].
  split; [reflexivity |].
  split; [| split; [apply py_format_row | split; [exact Hin | reflexivity]]].
  cbn [capacitance2 expected_row]. unfold howard_johnson, STRANDING_FACTOR.
  pose proof (In_dielectric m Hm) as Hd.
  pose proof (log_arg_gt_1 2 0.939 (snd c) t ltac:(lra) ltac:(lra)
                (In_conductor c Hc) (In_thickness t Ht)) as A.
  unfold log_arg in A.
  pose proof (ln_neq_log10 _ A) as Hlt. pose proof (log10_pos _ A) as Hpos.
  pose proof (div_lt_contravar (12 * 0.7065) _ _ ltac:(lra) Hpos Hlt) as Hdiv.
  apply Rlt_not_eq. apply Rmult_lt_compat_r; [exact Hd | exact Hdiv].
Qed.

(** C3. For every combination of the tables both logarithm arguments exceed
    1, both capacitances are strictly positive, and the three loops finish
    without raising any exception. *)
Theorem table_rows_positive :
  forall material conductor thickness,
    In material DIELECTRIC_LIST -> In conductor CONDUCTOR_LIST ->
    In thickness INSULATION_THICKNESS_LIST ->
    1 < (1.3 * ((2.0 * thickness) + snd conductor))
        / (STRANDING_FACTOR * snd conductor) /\
    1 < (2 * ((2.0 * thickness) + snd conductor))
        / (STRANDING_FACTOR * snd conductor) /\
    (exists r,
        row_of STRANDING_FACTOR material conductor thickness = Ok r /\
        0 < capacitance r /\ 0 < capacitance2 r) /\
    snd (main_loops STRANDING_FACTOR []) = Ok tt.
Proof.
  intros m c t Hm Hc Ht.
  pose proof (In_dielectric m Hm) as Hd.
  pose proof (In_conductor c Hc) as HD.
  pose proof (In_thickness t Ht) as Ht0.
  pose proof stranding_factor_range as Hk.
  replace (2.0 * t) with (2 * t) by lra.
  split; [apply (log_arg_gt_1 1.3); (assumption || lra) |].
  split; [apply (log_arg_gt_1 2); (assumption || lra) |].
  split.
  - exists (expected_row STRANDING_FACTOR m c t).
    split; [now apply row_of_ok |].
    cbn [capacitance capacitance2 expected_row].
    split; [now apply general_cable_pos | now apply howard_johnson_pos].
  - rewrite main_loops_ok by exact Hk. reflexivity.
Qed.

Lemma table_rows_positive_halar_awg30 :
  1 < (1.3 * ((2.0 * 0.006) + 0.012)) / (STRANDING_FACTOR * 0.012) /\
  1 < (2 * ((2.0 * 0.006) + 0.012)) / (STRANDING_FACTOR * 0.012) /\
  (exists r,
      row_of STRANDING_FACTOR ("ECTFE/Halar"%string, 2.60)
             ("AWG30"%string, "7/38"%string, 0.012) 0.006 = Ok r /\
      0 < capacitance r /\ 0 < capacitance2 r) /\
  snd (main_loops STRANDING_FACTOR []) = Ok tt.
Proof.
  apply (table_rows_positive ("ECTFE/Halar"%string, 2.60)
           ("AWG30"%string, "7/38"%string, 0.012) 0.006);
    simpl; auto.
Defined.

(** The output is the table of combinations, line for line. *)
Lemma expected_output_combinations (k : R) :
  expected_output k
  = map (fun x => expected_line (fst x) (fst (snd x)) (snd (snd x))
                    (expected_row k (fst x) (fst (snd x)) (snd (snd x))))
        (list_prod DIELECTRIC_LIST (list_prod CONDUCTOR_LIST INSULATION_THICKNESS_LIST)).
Proof. reflexivity. Qed.

Lemma Forall2_map_r {A B} (P : A -> B -> Prop) (f : A -> B) (xs : list A) :
  (forall x, In x xs -> P x (f x)) -> Forall2 P xs (map f xs).
Proof.
  induction xs as [| x xs IH]; intros H; cbn [map]; constructor.
  - apply H. left. reflexivity.
  - apply IH. intros y Hy. apply H. right. exact Hy.
Qed.

(** C4. One run writes exactly 960 lines, 16 x 5 x 12: standard output and
    the product of the three tables, taken in loop order, correspond
    element by element, each line being the one formatted from its
    combination. *)
Theorem utp_line_count :
  List.length (fst utp) = 960%nat /\
  List.length DIELECTRIC_LIST = 16%nat /\
  List.length CONDUCTOR_LIST = 5%nat /\
  List.length INSULATION_THICKNESS_LIST = 12%nat /\
  Forall2 (fun x s =>
             exists r,
               row_of STRANDING_FACTOR (fst x) (fst (snd x)) (snd (snd x)) = Ok r /\
               py_format LINE_FORMAT
                 (line_args (fst x) (fst (snd x)) (snd (snd x)) r) = Ok s)
          (list_prod DIELECTRIC_LIST
             (list_prod CONDUCTOR_LIST INSULATION_THICKNESS_LIST))
          (fst utp).
Proof.
  rewrite utp_ok. cbn [fst]. rewrite expected_output_length.
  repeat (split; [reflexivity |]).
  rewrite expected_output_combinations.
  apply Forall2_map_r. intros [m [c t]] Hx. cbn [fst snd].
  apply in_prod_iff in Hx as [Hm Hx]. apply in_prod_iff in Hx as [Hc Ht].
  destruct (table_row m c t Hm Hc Ht) as [Hrow _].
  eexists. split; [exact Hrow | apply py_format_row].
Qed.

(** C5. The line at position [60 i + 12 j + l] is the one formatted from
    material [i], conductor [j] and thickness [l]: material is the outer
    loop, thickness the inner one.  The first line is that of the first
    entry of each table, the last line that of the last entries. *)
Theorem utp_line_order :
  (forall i j l material conductor thickness,
      nth_error DIELECTRIC_LIST i = Some material ->
      nth_error CONDUCTOR_LIST j = Some conductor ->
      nth_error INSULATION_THICKNESS_LIST l = Some thickness ->
      exists r s,
        row_of STRANDING_FACTOR material conductor thickness = Ok r /\
        py_format LINE_FORMAT (line_args material conductor thickness r) = Ok s /\
        nth_error (fst utp) (i * 60 + j * 12 + l) = Some s) /\
  (exists r s,
      row_of STRANDING_FACTOR ("ECTFE/Halar"%string, 2.60)
             ("AWG30"%string, "7/38"%string, 0.012) 0.006 = Ok r /\
      py_format LINE_FORMAT
        (line_args ("ECTFE/Halar"%string, 2.60)
                   ("AWG30"%string, "7/38"%string, 0.012) 0.006 r) = Ok s /\
      nth_error (fst utp) 0 = Some s) /\
  (exists r s,
      row_of STRANDING_FACTOR ("Tefzel"%string, 2.6)
             ("AWG22"%string, "7/30"%string, 0.030) 0.060 = Ok r /\
      py_format LINE_FORMAT
        (line_args ("Tefzel"%string, 2.6)
                   ("AWG22"%string, "7/30"%string, 0.030) 0.060 r) = Ok s /\
      nth_error (fst utp) (List.length (fst utp) - 1) = Some s).
Proof.
  assert (H : forall i j l material conductor thickness,
      nth_error DIELECTRIC_LIST i = Some material ->
      nth_error CONDUCTOR_LIST j = Some conductor ->
      nth_error INSULATION_THICKNESS_LIST l = Some thickness ->
      exists r s,
        row_of STRANDING_FACTOR material conductor thickness = Ok r /\
        py_format LINE_FORMAT (line_args material conductor thickness r) = Ok s /\
        nth_error (fst utp) (i * 60 + j * 12 + l) = Some s).
  { intros i j l m c t Hi Hj Hl.
    destruct (table_row m c t) as [Hrow _]; eauto using nth_error_In.
    eexists. eexists. split; [exact Hrow |]. split; [apply py_format_row |].
    rewrite utp_ok. cbn [fst]. now apply expected_output_nth. }
  split; [exact H |]. split.
  - apply (H 0%nat 0%nat 0%nat); reflexivity.
  - assert (E : (List.length (fst utp) - 1 = 15 * 60 + 4 * 12 + 11)%nat).
    { rewrite utp_ok. cbn [fst]. now rewrite expected_output_length. }
    rewrite E. apply (H 15%nat 4%nat 11%nat); reflexivity.
Qed.

Lemma utp_line_order_second_group :
  exists r s,
    row_of STRANDING_FACTOR ("ECTFE/Halar"%string, 2.60)
           ("AWG28"%string, "7/36"%string, 0.015) 0.010 = Ok r /\
    py_format LINE_FORMAT
      (line_args ("ECTFE/Halar"%string, 2.60)
                 ("AWG28"%string, "7/36"%string, 0.015) 0.010 r) = Ok s /\
    nth_error (fst utp) 13 = Some s.
Proof.
  apply (proj1 utp_line_order 0%nat 1%nat 1%nat); reflexivity.
Defined.

(** ** The per-millimetre values *)

Lemma B64_MM_PER_FT_value :
  B64.to_R B64.MM_PER_FT = Some (5362098306337996 * / 2 ^ 44).
Proof.
  unfold B64.to_R.
  replace (FloatOps.Prim2SF B64.MM_PER_FT)
    with (SpecFloat.S754_finite false 5362098306337996 (-44))
    by (vm_compute; reflexivity).
  reflexivity.
Qed.

(** The binary64 product is not the binary64 literal [304.8]. *)
Lemma B64_MM_PER_FT_not_literal :
  PrimFloat.eqb B64.MM_PER_FT B64.literal_304_8 = false.
Proof. vm_compute. reflexivity. Qed.

Lemma B64_MM_PER_FT_near :
  exists mm, B64.to_R B64.MM_PER_FT = Some mm /\ mm < 304.8 /\ within_rel 1e-9 mm 304.8.
Proof.
  eexists. split; [apply B64_MM_PER_FT_value |]. split; [lra |].
  unfold within_rel. rewrite (Rabs_pos_eq 304.8) by lra.
  apply Rabs_le. lra.
Qed.

(** C6. The per-millimetre values are the per-foot values divided by
    [MM_PER_FT] = 25.4 x 12.0, and agree with the quotient by 304.8 within
    the relative tolerance 1e-9.  In binary64: whatever the C library
    returns for the logarithms, a row the loop body returns holds the two
    formulas and their binary64 quotients by the binary64 [MM_PER_FT]
    (which is just below 304.8), and each quotient is within 1e-9 of the
    real quotient of its per-foot float by 304.8 as soon as that float lies
    between 2^-1000 and 2^1000.  On the reals: for every combination of the
    tables the printed line carries the two formulas and, as per-millimetre
    fields, their quotients by 304.8 with four decimals. *)
Theorem per_mm_values :
  (forall (libm_log10 libm_log : PrimFloat.float -> PrimFloat.float)
          k material conductor thickness r,
      B64.row_of libm_log10 libm_log k material conductor thickness = Ok r ->
      B64.capacitance r
      = B64.general_cable libm_log10 k (snd material) (snd conductor) thickness /\
      B64.capacitance2 r
      = B64.howard_johnson libm_log k (snd material) (snd conductor) thickness /\
      B64.capacitance_mm r = PrimFloat.div (B64.capacitance r) B64.MM_PER_FT /\
      B64.capacitance2_mm r = PrimFloat.div (B64.capacitance2 r) B64.MM_PER_FT /\
      (B64.in_range (B64.capacitance r) = true ->
       exists x q,
         B64.to_R (B64.capacitance r) = Some x /\
         B64.to_R (B64.capacitance_mm r) = Some q /\
         within_rel 1e-9 q (x / 304.8)) /\
      (B64.in_range (B64.capacitance2 r) = true ->
       exists x q,
         B64.to_R (B64.capacitance2 r) = Some x /\
         B64.to_R (B64.capacitance2_mm r) = Some q /\
         within_rel 1e-9 q (x / 304.8))) /\
  (exists mm,
      B64.to_R B64.MM_PER_FT = Some mm /\ mm < 304.8 /\ within_rel 1e-9 mm 304.8) /\
  (forall material conductor thickness,
      In material DIELECTRIC_LIST -> In conductor CONDUCTOR_LIST ->
      In thickness INSULATION_THICKNESS_LIST ->
      exists r s,
        row_of STRANDING_FACTOR material conductor thickness = Ok r /\
        capacitance r
        = (2.2 * snd material)
          / log10 ((1.3 * (2 * thickness + snd conductor)) / (0.939 * snd conductor)) /\
        capacitance2 r
        = ((12 * 0.7065)
           / ln ((2 * (2 * thickness + snd conductor)) / (0.939 * snd conductor)))
          * snd material /\
        py_format LINE_FORMAT (line_args material conductor thickness r) = Ok s /\
        In s (fst utp) /\
        s = (fst (fst conductor) ++ " " ++ rjust 1 (format_f 3 thickness) ++ " inch thick "
             ++ fst material ++ " = "
             ++ rjust 5 (format_f 2 ((2.2 * snd material)
                                      / log10 ((1.3 * (2 * thickness + snd conductor))
                                               / (0.939 * snd conductor)))) ++ " pf/ft "
             ++ rjust 5 (format_f 4 (((2.2 * snd material)
                                       / log10 ((1.3 * (2 * thickness + snd conductor))
                                                / (0.939 * snd conductor)))
                                      / 304.8)) ++ " pf/mm "
             ++ "(General Cable) "
             ++ rjust 5 (format_f 2 (((12 * 0.7065)
                                       / ln ((2 * (2 * thickness + snd conductor))
                                             / (0.939 * snd conductor)))
                                      * snd material)) ++ " pf/ft "
             ++ rjust 5 (format_f 4 ((((12 * 0.7065)
                                        / ln ((2 * (2 * thickness + snd conductor))
                                              / (0.939 * snd conductor)))
                                       * snd material)
                                      / 304.8)) ++ " pf/mm "
             ++ "(Howard Johnson)")%string).
Proof.
  split; [| split; [exact B64_MM_PER_FT_near |]].
  - intros libm_log10 libm_log k m c t r Hr.
    destruct (B64Facts.row_of_inv _ _ _ _ _ _ _ Hr) as (H1 & H2 & H3 & H4).
    repeat (split; [assumption |]). split; intros Hrange.
    + destruct (B64Facts.div_MM_PER_FT_accuracy _ Hrange) as (x & q & Hx & Hq & _ & Hw).
      exists x, q. rewrite H2. auto.
    + destruct (B64Facts.div_MM_PER_FT_accuracy _ Hrange) as (x & q & Hx & Hq & _ & Hw).
      exists x, q. rewrite H4. auto.
  - intros m c t Hm Hc Ht.
    destruct (table_row m c t Hm Hc Ht) as [Hrow Hin].
    exists (expected_row STRANDING_FACTOR m c t). eexists.
    split; [exact Hrow |].
    cbn [capacitance capacitance_mm capacitance2 capacitance2_mm expected_row].
    split; [reflexivity |]. split; [reflexivity |].
    split; [apply py_format_row |]. split; [exact Hin | reflexivity].
Qed.

Lemma per_mm_values_unit_libm :
  exists r x q,
    B64.row_of (fun _ => PrimFloat.one) (fun _ => PrimFloat.one) B64.STRANDING_FACTOR
               B64.first_material B64.first_conductor B64.first_thickness = Ok r /\
    B64.in_range (B64.capacitance r) = true /\
    B64.to_R (B64.capacitance r) = Some x /\
    B64.to_R (B64.capacitance_mm r) = Some q /\
    within_rel 1e-9 q (x / 304.8).
Proof.
  assert (E : exists r,
             B64.row_of (fun _ => PrimFloat.one) (fun _ => PrimFloat.one)
                        B64.STRANDING_FACTOR B64.first_material B64.first_conductor
                        B64.first_thickness = Ok r /\
             B64.in_range (B64.capacitance r) = true).
  { eexists. split; vm_compute; reflexivity. }
  destruct E as (r & E & Hrange).
  destruct (proj1 per_mm_values _ _ _ _ _ _ r E) as (_ & _ & _ & _ & H1 & _).
  destruct (H1 Hrange) as (x & q & Hx & Hq & Hw).
  exists r, x, q. repeat split; assumption.
Defined.

(** ** Exit paths, for any stranding factor *)

Lemma py_div_cases (a b : R) :
  py_div a b = Ok (a / b) \/ py_div a b = Raise ZeroDivisionError.
Proof.
  unfold py_div. destruct (Req_dec_T b 0); [right | left]; reflexivity.
Qed.

Lemma math_log10_cases (x : R) :
  math_log10 x = Ok (log10 x) \/ math_log10 x = Raise ValueError.
Proof.
  unfold math_log10. destruct (Rle_dec x 0); [right | left]; reflexivity.
Qed.

Lemma math_log_cases (x : R) :
  math_log x = Ok (ln x) \/ math_log x = Raise ValueError.
Proof.
  unfold math_log. destruct (Rle_dec x 0); [right | left]; reflexivity.
Qed.

Ltac step_row :=
  match goal with
  | |- context [py_div ?a ?b] =>
      destruct (py_div_cases a b) as [-> | ->]; cbn [rbind]
  | |- context [math_log10 ?x] =>
      destruct (math_log10_cases x) as [-> | ->]; cbn [rbind]
  | |- context [math_log ?x] =>
      destruct (math_log_cases x) as [-> | ->]; cbn [rbind]
  end.

Lemma row_of_outcome (k : R) material conductor thickness :
  (exists r, row_of k material conductor thickness = Ok r) \/
  (exists e, row_of k material conductor thickness = Raise e /\ arithmetic_fault e).
Proof.
  unfold row_of, arithmetic_fault.
  repeat step_row; eauto.
Qed.

Lemma loop_body_outcome (k : R) material conductor thickness (out : list string) :
  (exists s, loop_body k material conductor thickness out = (out ++ [s], Ok tt)) \/
  (exists out' e, loop_body k material conductor thickness out = (out', Raise e)
                  /\ arithmetic_fault e).
Proof.
  unfold loop_body, bind, lift.
  destruct (row_of_outcome k material conductor thickness) as [[r ->] | (e & -> & He)].
  - left. rewrite py_format_row. eexists. reflexivity.
  - right. now exists out, e.
Qed.

Lemma for_each_outcome {A} (n : nat) (xs : list A) (body : A -> M unit) :
  (forall x out,
      (exists ls, List.length ls = n /\ body x out = (out ++ ls, Ok tt)) \/
      (exists out' e, body x out = (out', Raise e) /\ arithmetic_fault e)) ->
  forall out,
    (exists ls, List.length ls = (List.length xs * n)%nat
                /\ for_each xs body out = (out ++ ls, Ok tt)) \/
    (exists out' e, for_each xs body out = (out', Raise e) /\ arithmetic_fault e).
Proof.
  intros Hbody. induction xs as [| x xs IH]; intros out; cbn [for_each].
  - left. exists []. split; [reflexivity |]. unfold ret. now rewrite app_nil_r.
  - unfold bind.
    destruct (Hbody x out) as [(ls & Hlen & ->) | (out' & e & -> & He)].
    + destruct (IH (out ++ ls)) as [(ls' & Hlen' & ->) | (out' & e & -> & He)].
      * left. exists (ls ++ ls'). split; [| now rewrite app_assoc].
        rewrite length_app, Hlen, Hlen'. cbn [List.length]. lia.
      * right. now exists out', e.
    + right. now exists out', e.
Qed.

Lemma main_loops_outcome (k : R) (out : list string) :
  (exists ls, List.length ls = 960%nat /\ main_loops k out = (out ++ ls, Ok tt)) \/
  (exists out' e, main_loops k out = (out', Raise e) /\ arithmetic_fault e).
Proof.
  unfold main_loops.
  apply (for_each_outcome 60 DIELECTRIC_LIST). intros m o.
  apply (for_each_outcome 12 CONDUCTOR_LIST). intros c o'.
  apply (for_each_outcome 1 INSULATION_THICKNESS_LIST). intros t o''.
  destruct (loop_body_outcome k m c t o'') as [[s ->] | H]; [left | right; exact H].
  exists [s]. split; reflexivity.
Qed.

(** C9. The run ends with status 0 after its 960 lines.  Whatever the
    stranding factor, the script either writes 960 lines and leaves through
    [sys.exit(0)], or stops on an uncaught arithmetic fault; it never falls
    off its end and never exits with another code. *)
Theorem utp_exit_status :
  snd utp = 0%Z /\ List.length (fst utp) = 960%nat /\
  forall k,
    (exists ls, script k [] = (ls, Raise (SystemExit 0)) /\ List.length ls = 960%nat
                /\ run (script k) = (ls, 0%Z)) \/
    (exists out e, script k [] = (out, Raise e) /\ arithmetic_fault e
                   /\ run (script k) = (out, 1%Z)).
Proof.
  split; [now rewrite utp_ok |].
  split; [rewrite utp_ok; apply expected_output_length |].
  intros k. unfold run, script, bind.
  destruct (main_loops_outcome k []) as [(ls & Hlen & ->) | (out & e & -> & He)].
  - left. exists ls. cbn [app sys_exit lift]. auto.
  - right. exists out, e. destruct He as [-> | ->]; unfold arithmetic_fault; auto.
Qed.

(** The fault path is real: with a stranding factor of 0 the first
    division raises and nothing is written. *)
Lemma zero_stranding_factor_faults : run (script 0) = ([], 1%Z).
Proof.
  assert (Hrow : forall m c t, row_of 0 m c t = Raise ZeroDivisionError).
  { intros m c t. unfold row_of. rewrite Rmult_0_l, py_div_zero. reflexivity. }
  unfold run, script, main_loops, DIELECTRIC_LIST, CONDUCTOR_LIST,
    INSULATION_THICKNESS_LIST.
  cbn [for_each]. unfold bind at 1 2 3 4. unfold loop_body at 1.
  unfold bind, lift. rewrite Hrow. reflexivity.
Qed.

(** A negative stranding factor makes the first logarithm argument
    negative: a math domain error, again before any line is written. *)
Lemma negative_stranding_factor_faults : run (script (-1)) = ([], 1%Z).
Proof.
  assert (Hrow : row_of (-1) ("ECTFE/Halar"%string, 2.60)
                   ("AWG30"%string, "7/38"%string, 0.012) 0.006
                 = Raise ValueError).
  { unfold row_of. cbn [snd].
    rewrite py_div_ok by lra. cbn [rbind].
    rewrite math_log10_domain; [reflexivity |].
    lra. }
  unfold run, script, main_loops, DIELECTRIC_LIST, CONDUCTOR_LIST,
    INSULATION_THICKNESS_LIST.
  cbn [for_each]. unfold bind at 1 2 3 4. unfold loop_body at 1.
  unfold bind, lift. rewrite Hrow. reflexivity.
Qed.

(** ** The thickness table is increasing *)

Lemma StronglySorted_nth_error {A} (lt : A -> A -> Prop) (xs : list A) :
  StronglySorted lt xs ->
  forall i j x y, (i < j)%nat ->
  nth_error xs i = Some x -> nth_error xs j = Some y -> lt x y.
Proof.
  induction 1 as [| a xs Hs IH Ha]; intros i j x y Hij Hi Hj.
  - destruct i; discriminate.
  - destruct j as [| j]; [lia |]. cbn [nth_error] in Hj.
    destruct i as [| i].
    + injection Hi as <-.
      apply (proj1 (Forall_forall _ _) Ha). eapply nth_error_In, Hj.
    + cbn [nth_error] in Hi. apply (IH i j); [lia | exact Hi | exact Hj].
Qed.

Lemma thickness_sorted : StronglySorted Rlt INSULATION_THICKNESS_LIST.
Proof.
  unfold INSULATION_THICKNESS_LIST.
  repeat (apply SSorted_cons; [| repeat constructor; lra]).
  apply SSorted_nil.
Qed.

(** C10, as the claim states it, fails on the binary64 values of the
    script: the first thickness of the table and the next float above it
    give, for the first material and conductor, the same arguments to both
    logarithms, hence the same row whatever the C library returns; the
    thicker insulation does not give strictly smaller capacitances. *)
Lemma next_float_thickness_same_capacitance :
  PrimFloat.ltb PrimFloat.zero B64.first_thickness = true /\
  PrimFloat.ltb B64.first_thickness (PrimFloat.next_up B64.first_thickness) = true /\
  forall libm_log10 libm_log : PrimFloat.float -> PrimFloat.float,
    B64.row_of libm_log10 libm_log B64.STRANDING_FACTOR
               B64.first_material B64.first_conductor
               (PrimFloat.next_up B64.first_thickness)
    = B64.row_of libm_log10 libm_log B64.STRANDING_FACTOR
                 B64.first_material B64.first_conductor B64.first_thickness /\
    forall r1 r2,
      B64.row_of libm_log10 libm_log B64.STRANDING_FACTOR
                 B64.first_material B64.first_conductor B64.first_thickness = Ok r1 ->
      B64.row_of libm_log10 libm_log B64.STRANDING_FACTOR
                 B64.first_material B64.first_conductor
                 (PrimFloat.next_up B64.first_thickness) = Ok r2 ->
      PrimFloat.ltb (B64.capacitance r2) (B64.capacitance r1) = false /\
      PrimFloat.ltb (B64.capacitance2 r2) (B64.capacitance2 r1) = false.
Proof.
  split; [vm_compute; reflexivity |]. split; [vm_compute; reflexivity |].
  intros libm_log10 libm_log.
  assert (E : B64.row_of libm_log10 libm_log B64.STRANDING_FACTOR
                         B64.first_material B64.first_conductor
                         (PrimFloat.next_up B64.first_thickness)
              = B64.row_of libm_log10 libm_log B64.STRANDING_FACTOR
                           B64.first_material B64.first_conductor B64.first_thickness)
    by (vm_compute; reflexivity).
  split; [exact E |].
  intros r1 r2 H1 H2. rewrite E, H1 in H2. injection H2 as <-.
  split; apply B64Facts.ltb_irrefl.
Qed.

(** C10, amended. Within each (material, conductor) group the 12 lines
    carry strictly decreasing values: for table entries [i], [j] and
    thickness positions [l < l'], the lines at [60 i + 12 j + l] and
    [60 i + 12 j + l'] are formatted from rows whose two capacitances are
    strictly smaller at [l']. *)
Theorem thicker_insulation_smaller_capacitance :
  forall i j l l' material conductor t t',
    nth_error DIELECTRIC_LIST i = Some material ->
    nth_error CONDUCTOR_LIST j = Some conductor ->
    nth_error INSULATION_THICKNESS_LIST l = Some t ->
    nth_error INSULATION_THICKNESS_LIST l' = Some t' ->
    (l < l')%nat ->
    exists r r' s s',
      row_of STRANDING_FACTOR material conductor t = Ok r /\
      row_of STRANDING_FACTOR material conductor t' = Ok r' /\
      py_format LINE_FORMAT (line_args material conductor t r) = Ok s /\
      py_format LINE_FORMAT (line_args material conductor t' r') = Ok s' /\
      nth_error (fst utp) (i * 60 + j * 12 + l) = Some s /\
      nth_error (fst utp) (i * 60 + j * 12 + l') = Some s' /\
      capacitance r' < capacitance r /\
      capacitance2 r' < capacitance2 r.
Proof.
  intros i j l l' m c t t' Hi Hj Hl Hl' Hll.
  pose proof stranding_factor_range as Hk.
  pose proof (StronglySorted_nth_error Rlt _ thickness_sorted l l' t t' Hll Hl Hl') as Htt.
  pose proof (In_thickness t (nth_error_In _ _ Hl)) as Ht0.
  pose proof (In_dielectric m (nth_error_In _ _ Hi)) as Hd.
  pose proof (In_conductor c (nth_error_In _ _ Hj)) as HD.
  exists (expected_row STRANDING_FACTOR m c t), (expected_row STRANDING_FACTOR m c t').
  eexists. eexists.
  split; [apply row_of_ok; (assumption || lra) |].
  split; [apply row_of_ok; (assumption || lra) |].
  split; [apply py_format_row |]. split; [apply py_format_row |].
  rewrite utp_ok. cbn [fst].
  split; [now apply expected_output_nth |].
  split; [now apply expected_output_nth |].
  cbn [capacitance capacitance2 expected_row].
  split; [now apply general_cable_decr_t | now apply howard_johnson_decr_t].
Qed.

Lemma thicker_insulation_smaller_capacitance_halar_awg30 :
  exists r r' s s',
    row_of STRANDING_FACTOR ("ECTFE/Halar"%string, 2.60)
           ("AWG30"%string, "7/38"%string, 0.012) 0.006 = Ok r /\
    row_of STRANDING_FACTOR ("ECTFE/Halar"%string, 2.60)
           ("AWG30"%string, "7/38"%string, 0.012) 0.010 = Ok r' /\
    py_format LINE_FORMAT
      (line_args ("ECTFE/Halar"%string, 2.60)
                 ("AWG30"%string, "7/38"%string, 0.012) 0.006 r) = Ok s /\
    py_format LINE_FORMAT
      (line_args ("ECTFE/Halar"%string, 2.60)
                 ("AWG30"%string, "7/38"%string, 0.012) 0.010 r') = Ok s' /\
    nth_error (fst utp) 0 = Some s /\
    nth_error (fst utp) 1 = Some s' /\
    capacitance r' < capacitance r /\
    capacitance2 r' < capacitance2 r.
Proof.
  apply (thicker_insulation_smaller_capacitance 0 0 0 1); try reflexivity. lia.
Defined.

(** C7, as the claim states it, fails: for ECTFE/Halar, AWG30 and 0.006 inch
    the single-strand factor 1.000 gives larger capacitances than 0.939,
    not smaller ones. *)
Lemma single_strand_not_smaller :
  exists r r',
    row_of STRANDING_FACTOR ("ECTFE/Halar"%string, 2.60)
           ("AWG30"%string, "7/38"%string, 0.012) 0.006 = Ok r /\
    row_of 1.000 ("ECTFE/Halar"%string, 2.60)
           ("AWG30"%string, "7/38"%string, 0.012) 0.006 = Ok r' /\
    ~ (capacitance r' < capacitance r) /\
    ~ (capacitance2 r' < capacitance2 r).
Proof.
  eexists. eexists.
  split; [apply row_of_ok; [exact stranding_factor_range | cbn [snd]; lra | lra] |].
  split; [apply row_of_ok; [lra | cbn [snd]; lra | lra] |].
  cbn [capacitance capacitance2 expected_row snd]. unfold STRANDING_FACTOR.
  pose proof (general_cable_incr_k 2.60 0.012 ltac:(lra) ltac:(lra) 0.006 0.939 1.000
                ltac:(lra) ltac:(lra) ltac:(lra) ltac:(lra)) as H1.
  pose proof (howard_johnson_incr_k 2.60 0.012 ltac:(lra) ltac:(lra) 0.006 0.939 1.000
                ltac:(lra) ltac:(lra) ltac:(lra) ltac:(lra)) as H2.
  split; lra.
Qed.

Lemma stranding_factors_range : Forall (fun k => 0 < k <= 1) STRANDING_FACTORS.
Proof.
  unfold STRANDING_FACTORS.
  repeat (apply Forall_cons; [lra |]). apply Forall_nil.
Qed.

(** C7, amended. For every combination of the tables and any two of the
    six stranding factors the script lists, [k1 < k2], all four values of
    the row are strictly larger under [k2] than under [k1]: the
    capacitances increase with the stranding factor, from 0.939 to 1.000 in
    particular, and no combination keeps a value. *)
Theorem stranding_factor_increases_capacitance :
  forall material conductor thickness k1 k2,
    In material DIELECTRIC_LIST -> In conductor CONDUCTOR_LIST ->
    In thickness INSULATION_THICKNESS_LIST ->
    In k1 STRANDING_FACTORS -> In k2 STRANDING_FACTORS -> k1 < k2 ->
    exists r1 r2,
      row_of k1 material conductor thickness = Ok r1 /\
      row_of k2 material conductor thickness = Ok r2 /\
      capacitance r1 < capacitance r2 /\
      capacitance_mm r1 < capacitance_mm r2 /\
      capacitance2 r1 < capacitance2 r2 /\
      capacitance2_mm r1 < capacitance2_mm r2.
Proof.
  intros m c t k1 k2 Hm Hc Ht Hk1 Hk2 Hk.
  pose proof (proj1 (Forall_forall _ _) stranding_factors_range k1 Hk1) as R1.
  pose proof (proj1 (Forall_forall _ _) stranding_factors_range k2 Hk2) as R2.
  cbn beta in R1, R2.
  pose proof (In_dielectric m Hm) as Hd. pose proof (In_conductor c Hc) as HD.
  pose proof (In_thickness t Ht) as Ht0.
  exists (expected_row k1 m c t), (expected_row k2 m c t).
  split; [apply row_of_ok; (assumption || lra) |].
  split; [apply row_of_ok; (assumption || lra) |].
  cbn [capacitance capacitance_mm capacitance2 capacitance2_mm expected_row].
  pose proof (general_cable_incr_k _ _ Hd HD t k1 k2 Ht0 ltac:(lra) Hk ltac:(lra)) as H1.
  pose proof (howard_johnson_incr_k _ _ Hd HD t k1 k2 Ht0 ltac:(lra) Hk ltac:(lra)) as H2.
  repeat split; try assumption; now apply per_mm_lt.
Qed.

Lemma stranding_factor_increases_capacitance_halar_awg30 :
  exists r1 r2,
    row_of 0.939 ("ECTFE/Halar"%string, 2.60)
           ("AWG30"%string, "7/38"%string, 0.012) 0.006 = Ok r1 /\
    row_of 1.000 ("ECTFE/Halar"%string, 2.60)
           ("AWG30"%string, "7/38"%string, 0.012) 0.006 = Ok r2 /\
    capacitance r1 < capacitance r2 /\
    capacitance_mm r1 < capacitance_mm r2 /\
    capacitance2 r1 < capacitance2 r2 /\
    capacitance2_mm r1 < capacitance2_mm r2.
Proof.
  apply (stranding_factor_increases_capacitance
           ("ECTFE/Halar"%string, 2.60) ("AWG30"%string, "7/38"%string, 0.012) 0.006
           0.939 1.000);
    [simpl; auto | simpl; auto | simpl; auto
     | simpl; right; left; reflexivity | simpl; left; reflexivity | lra].
Defined.

(** ** The shape of a formatted number *)


Lemma string_length_app (s1 s2 : string) :
  String.length (s1 ++ s2) = (String.length s1 + String.length s2)%nat.
Proof.
  induction s1 as [| c s1 IH]; cbn [append String.length]; [reflexivity |].
  now rewrite IH.
Qed.


Lemma fixed_digits_length (n : nat) (z : Z) : String.length (fixed_digits n z) = n.
Proof.
  revert z. induction n as [| n IH]; intros z; cbn [fixed_digits]; [reflexivity |].
  rewrite string_length_app, IH. cbn [String.length]. lia.
Qed.








(** ** Enclosures of the logarithm *)

Lemma ln_le_minus_1 (y : R) : 0 < y -> ln y <= y - 1.
Proof.
  intros Hy. destruct (Req_dec y 1) as [-> | Hne].
  - rewrite ln_1. lra.
  - assert (H : 1 + (y - 1) < exp (y - 1)) by (apply exp_ineq1; lra).
    replace (1 + (y - 1)) with y in H by ring.
    apply Rlt_le. rewrite <- (ln_exp (y - 1)).
    now apply ln_increasing.
Qed.

Lemma ln_ge_1_minus_inv (y : R) : 0 < y -> 1 - / y <= ln y.
Proof.
  intros Hy. pose proof (Rinv_0_lt_compat y Hy) as Hi.
  pose proof (ln_le_minus_1 (/ y) Hi) as H.
  rewrite ln_Rinv in H by exact Hy. lra.
Qed.

Lemma ln_square (y : R) : 0 < y -> ln (y * y) = 2 * ln y.
Proof. intros Hy. rewrite ln_mult by exact Hy. ring. Qed.

Lemma ln_le (x y : R) : 0 < x -> x <= y -> ln x <= ln y.
Proof.
  intros Hx [Hlt | ->]; [apply Rlt_le, ln_increasing; assumption | apply Rle_refl].
Qed.

Lemma SCALE_pos : (0 < SCALE)%Z.
Proof. reflexivity. Qed.

Lemma IZR_SCALE_pos : 0 < IZR SCALE.
Proof. apply IZR_lt, SCALE_pos. Qed.

Lemma root_lo_bound (n : nat) :
  forall a, (SCALE <= a)%Z ->
  (SCALE <= root_lo n a)%Z /\
  2 ^ n * ln (IZR (root_lo n a) / IZR SCALE) <= ln (IZR a / IZR SCALE).
Proof.
  pose proof SCALE_pos as HS. pose proof IZR_SCALE_pos as HSR.
  induction n as [| n IH]; intros a Ha; cbn [root_lo].
  - split; [exact Ha | lra].
  - set (b := Z.sqrt (a * SCALE)).
    assert (Hb : (SCALE <= b)%Z).
    { unfold b. rewrite <- (Z.sqrt_square SCALE) at 1 by lia.
      apply Z.sqrt_le_mono. nia. }
    assert (Hbb : (b * b <= a * SCALE)%Z).
    { unfold b. apply Z.sqrt_spec. nia. }
    destruct (IH b Hb) as [IH1 IH2]. split; [exact IH1 |].
    assert (HbR : 0 < IZR b / IZR SCALE).
    { apply Rdiv_lt_0_compat; [apply IZR_lt; lia | exact HSR]. }
    assert (Hsq : IZR b / IZR SCALE * (IZR b / IZR SCALE) <= IZR a / IZR SCALE).
    { apply IZR_le in Hbb. rewrite !mult_IZR in Hbb.
      apply Rmult_le_reg_r with (IZR SCALE * IZR SCALE); [nra |].
      field_simplify; [| lra | lra]. nra. }
    pose proof (ln_le _ _ (Rmult_lt_0_compat _ _ HbR HbR) Hsq) as Hln.
    rewrite ln_square in Hln by exact HbR.
    cbn [pow]. nra.
Qed.

Lemma root_hi_bound (n : nat) :
  forall a, (0 < a)%Z ->
  (0 < root_hi n a)%Z /\
  ln (IZR a / IZR SCALE) <= 2 ^ n * ln (IZR (root_hi n a) / IZR SCALE).
Proof.
  pose proof SCALE_pos as HS. pose proof IZR_SCALE_pos as HSR.
  induction n as [| n IH]; intros a Ha; cbn [root_hi].
  - split; [exact Ha | lra].
  - set (b := (Z.sqrt (a * SCALE) + 1)%Z).
    assert (Hb : (0 < b)%Z).
    { unfold b. pose proof (Z.sqrt_nonneg (a * SCALE)). lia. }
    assert (Hbb : (a * SCALE < b * b)%Z).
    { unfold b. apply Z.sqrt_spec. nia. }
    destruct (IH b Hb) as [IH1 IH2]. split; [exact IH1 |].
    assert (HaR : 0 < IZR a / IZR SCALE).
    { apply Rdiv_lt_0_compat; [apply IZR_lt; lia | exact HSR]. }
    assert (HbR : 0 < IZR b / IZR SCALE).
    { apply Rdiv_lt_0_compat; [apply IZR_lt; lia | exact HSR]. }
    assert (Hsq : IZR a / IZR SCALE <= IZR b / IZR SCALE * (IZR b / IZR SCALE)).
    { apply IZR_lt in Hbb. rewrite !mult_IZR in Hbb.
      apply Rmult_le_reg_r with (IZR SCALE * IZR SCALE); [nra |].
      field_simplify; [| lra | lra]. nra. }
    pose proof (ln_le _ _ HaR Hsq) as Hln.
    rewrite ln_square in Hln by exact HbR.
    cbn [pow]. nra.
Qed.

Lemma pow2_pos (n : nat) : 0 < 2 ^ n.
Proof. apply pow_lt. lra. Qed.

(** A lower bound of [ln x] from a fixed-point number below [x]. *)
Lemma ln_lower (n : nat) (a : Z) (x : R) :
  (SCALE <= a)%Z -> IZR a / IZR SCALE <= x ->
  2 ^ n * (1 - IZR SCALE / IZR (root_lo n a)) <= ln x.
Proof.
  intros Ha Hx. pose proof SCALE_pos as HS. pose proof IZR_SCALE_pos as HSR.
  destruct (root_lo_bound n a Ha) as [H1 H2].
  assert (Hr : 0 < IZR (root_lo n a)) by (apply IZR_lt; lia).
  assert (HaR : 0 < IZR a / IZR SCALE).
  { apply Rdiv_lt_0_compat; [apply IZR_lt; lia | exact HSR]. }
  pose proof (ln_le _ _ HaR Hx) as Hln.
  pose proof (ln_ge_1_minus_inv (IZR (root_lo n a) / IZR SCALE)
                ltac:(apply Rdiv_lt_0_compat; assumption)) as Hlb.
  replace (/ (IZR (root_lo n a) / IZR SCALE))
    with (IZR SCALE / IZR (root_lo n a)) in Hlb by (field; lra).
  pose proof (pow2_pos n) as Hp.
  eapply Rle_trans; [| exact Hln]. eapply Rle_trans; [| exact H2].
  apply Rmult_le_compat_l; lra.
Qed.

(** An upper bound of [ln x] from a fixed-point number above [x]. *)
Lemma ln_upper (n : nat) (a : Z) (x : R) :
  (0 < a)%Z -> 0 < x -> x <= IZR a / IZR SCALE ->
  ln x <= 2 ^ n * (IZR (root_hi n a) / IZR SCALE - 1).
Proof.
  intros Ha Hx0 Hx. pose proof SCALE_pos as HS. pose proof IZR_SCALE_pos as HSR.
  destruct (root_hi_bound n a Ha) as [H1 H2].
  assert (Hr : 0 < IZR (root_hi n a)) by (apply IZR_lt; lia).
  pose proof (ln_le _ _ Hx0 Hx) as Hln.
  pose proof (ln_le_minus_1 (IZR (root_hi n a) / IZR SCALE)
                ltac:(apply Rdiv_lt_0_compat; assumption)) as Hub.
  pose proof (pow2_pos n) as Hp.
  eapply Rle_trans; [exact Hln |]. eapply Rle_trans; [exact H2 |].
  apply Rmult_le_compat_l; lra.
Qed.

(** The logarithm of a rational [p / q >= 1] between two numbers checked
    by evaluation. *)
Lemma ln_enclosure (n : nat) (p q : Z) (x lo hi : R) :
  (0 < q)%Z -> (q <= p)%Z -> x = IZR p / IZR q ->
  lo <= 2 ^ n * (1 - IZR SCALE / IZR (root_lo n (p * SCALE / q))) ->
  2 ^ n * (IZR (root_hi n (p * SCALE / q + 1)) / IZR SCALE - 1) <= hi ->
  lo <= ln x <= hi.
Proof.
  intros Hq Hpq -> Hlo Hhi.
  pose proof SCALE_pos as HS. pose proof IZR_SCALE_pos as HSR.
  assert (HqR : 0 < IZR q) by (apply IZR_lt; exact Hq).
  assert (HpR : 0 < IZR p) by (apply IZR_lt; lia).
  set (a := (p * SCALE / q)%Z) in *.
  assert (Ha : (SCALE <= a)%Z).
  { unfold a. apply Z.div_le_lower_bound; [exact Hq | nia]. }
  assert (Ha1 : (a * q <= p * SCALE)%Z).
  { unfold a. rewrite Z.mul_comm. apply Z.mul_div_le. exact Hq. }
  assert (Ha2 : (p * SCALE < (a + 1) * q)%Z).
  { unfold a. pose proof (Z.mul_succ_div_gt (p * SCALE) q Hq). lia. }
  apply IZR_le in Ha1. apply IZR_lt in Ha2.
  rewrite !mult_IZR in Ha1, Ha2.
  split.
  - eapply Rle_trans; [exact Hlo |]. apply ln_lower; [exact Ha |].
    apply Rmult_le_reg_r with (IZR SCALE * IZR q); [nra |].
    field_simplify; [| lra | lra]. nra.
  - eapply Rle_trans; [| exact Hhi]. apply ln_upper; [lia | |].
    + now apply Rdiv_lt_0_compat.
    + apply Rmult_le_reg_r with (IZR SCALE * IZR q); [nra |].
      field_simplify; [| lra | lra]. nra.
Qed.

Ltac enclose_ln n p q :=
  apply (ln_enclosure n p q); [lia | lia | lra | |];
  match goal with
  | |- context [root_lo ?k ?a] =>
      let v := eval vm_compute in (root_lo k a) in
      replace (root_lo k a) with v by (vm_compute; reflexivity)
  | |- context [root_hi ?k ?a] =>
      let v := eval vm_compute in (root_hi k a) in
      replace (root_hi k a) with v by (vm_compute; reflexivity)
  end;
  let s := eval vm_compute in SCALE in
  change SCALE with s; lra.

Lemma ln_10_enclosure : 2.302585 <= ln 10 <= 2.3025851.
Proof. enclose_ln 30%nat 10%Z 1%Z. Qed.

(** The logarithm arguments of the first and of the last line. *)
Lemma ln_first_general_cable : 1.018451 <= ln (2600 / 939) <= 1.018452.
Proof. enclose_ln 30%nat 2600%Z 939%Z. Qed.

Lemma ln_first_howard_johnson : 1.449234 <= ln (4000 / 939) <= 1.449235.
Proof. enclose_ln 30%nat 4000%Z 939%Z. Qed.

Lemma ln_last_general_cable : 1.934741 <= ln (6500 / 939) <= 1.934742.
Proof. enclose_ln 30%nat 6500%Z 939%Z. Qed.

Lemma ln_last_howard_johnson : 2.365524 <= ln (10000 / 939) <= 2.365525.
Proof. enclose_ln 30%nat 10000%Z 939%Z. Qed.

Lemma div_between (c x lo hi : R) :
  0 < x -> lo * x < c -> c < hi * x -> lo < c / x < hi.
Proof.
  intros Hx Hlo Hhi. split.
  - apply Rmult_lt_reg_r with x; [exact Hx |].
    unfold Rdiv. rewrite Rmult_assoc, Rinv_l by lra. lra.
  - apply Rmult_lt_reg_r with x; [exact Hx |].
    unfold Rdiv. rewrite Rmult_assoc, Rinv_l by lra. lra.
Qed.

(** Enclosures of the two formulas from enclosures of the logarithms. *)
Lemma general_cable_between (d D t k a la ua lo hi : R) :
  (1.3 * (2 * t + D)) / (k * D) = a ->
  0 < la -> la <= ln a <= ua ->
  lo * ua < 2.2 * d * 2.302585 -> 2.2 * d * 2.3025851 < hi * la ->
  0 < lo -> 0 < d ->
  lo < general_cable d D t k < hi.
Proof.
  intros Ha Hla Hln Hlo Hhi Hlo0 Hd. unfold general_cable, log10. rewrite Ha.
  pose proof ln_10_enclosure as H10.
  assert (Hq : 0 < ln a / ln 10) by (apply Rdiv_lt_0_compat; lra).
  assert (Hx : forall c, c * (ln a / ln 10) * ln 10 = c * ln a) by (intros c; field; lra).
  assert (Hd2 : 0 <= 2.2 * d) by lra.
  pose proof (Rmult_le_compat_l _ _ _ Hd2 (proj1 H10)) as B1.
  pose proof (Rmult_le_compat_l _ _ _ Hd2 (proj2 H10)) as B2.
  assert (Hhi0 : 0 <= hi) by nra.
  pose proof (Rmult_le_compat_l _ _ _ (Rlt_le _ _ Hlo0) (proj2 Hln)) as B3.
  pose proof (Rmult_le_compat_l _ _ _ Hhi0 (proj1 Hln)) as B4.
  apply div_between; [exact Hq | |].
  - apply Rmult_lt_reg_r with (ln 10); [lra |]. rewrite Hx. lra.
  - apply Rmult_lt_reg_r with (ln 10); [lra |]. rewrite Hx. lra.
Qed.

Lemma howard_johnson_between (d D t k a la ua lo hi : R) :
  (2 * (2 * t + D)) / (k * D) = a ->
  0 < la -> la <= ln a <= ua ->
  lo * ua < 12 * 0.7065 * d -> 12 * 0.7065 * d < hi * la ->
  0 < lo -> 0 < d ->
  lo < howard_johnson d D t k < hi.
Proof.
  intros Ha Hla Hln Hlo Hhi Hlo0 Hd. unfold howard_johnson. rewrite Ha.
  replace (12 * 0.7065 / ln a * d) with ((12 * 0.7065 * d) / ln a) by (field; lra).
  assert (Hhi0 : 0 <= hi) by nra.
  pose proof (Rmult_le_compat_l _ _ _ (Rlt_le _ _ Hlo0) (proj2 Hln)) as B3.
  pose proof (Rmult_le_compat_l _ _ _ Hhi0 (proj1 Hln)) as B4.
  apply div_between; [lra | lra | lra].
Qed.

Lemma first_row_values :
  12.9321 < general_cable 2.60 0.012 0.006 STRANDING_FACTOR < 12.9323 /\
  15.2099 < howard_johnson 2.60 0.012 0.006 STRANDING_FACTOR < 15.2100.
Proof.
  unfold STRANDING_FACTOR. split.
  - apply (general_cable_between _ _ _ _ (2600 / 939) 1.018451 1.018452);
      [lra | lra | exact ln_first_general_cable | lra ..].
  - apply (howard_johnson_between _ _ _ _ (4000 / 939) 1.449234 1.449235);
      [lra | lra | exact ln_first_howard_johnson | lra ..].
Qed.

Lemma last_row_values :
  6.8075 < general_cable 2.6 0.030 0.060 STRANDING_FACTOR < 6.8076 /\
  9.3183 < howard_johnson 2.6 0.030 0.060 STRANDING_FACTOR < 9.3184.
Proof.
  unfold STRANDING_FACTOR. split.
  - apply (general_cable_between _ _ _ _ (6500 / 939) 1.934741 1.934742);
      [lra | lra | exact ln_last_general_cable | lra ..].
  - apply (howard_johnson_between _ _ _ _ (10000 / 939) 2.365524 2.365525);
      [lra | lra | exact ln_last_howard_johnson | lra ..].
Qed.

(** ** Formatting a number known between two bounds *)

Lemma round_half_even_near (z : Z) (x : R) :
  IZR z - 1 / 2 < x < IZR z + 1 / 2 -> round_half_even x = z.
Proof.
  intros [Hlo Hhi]. unfold round_half_even.
  destruct (base_Int_part x) as [H1 H2].
  set (f := Int_part x) in *.
  assert (Hf : (f = z \/ f = z - 1)%Z).
  { assert (A : (f < z + 1)%Z) by (apply lt_IZR; rewrite plus_IZR; lra).
    assert (B : (z - 2 < f)%Z) by (apply lt_IZR; rewrite minus_IZR; lra).
    lia. }
  destruct Hf as [-> | ->].
  - destruct (Rlt_dec (x - IZR z) (1 / 2)) as [_ | N]; [reflexivity | lra].
  - rewrite minus_IZR in *.
    destruct (Rlt_dec (x - (IZR z - 1)) (1 / 2)) as [L | _]; [lra |].
    destruct (Rlt_dec (1 / 2) (x - (IZR z - 1))) as [_ | N]; [lia | lra].
Qed.

Lemma format_f_near (p : nat) (z : Z) (x : R) :
  0 <= x -> IZR z - 1 / 2 < x * 10 ^ S p < IZR z + 1 / 2 ->
  format_f (S p) x
  = (decimal_of_Z (z / 10 ^ Z.of_nat (S p)) ++ "."
     ++ fixed_digits (S p) (z mod 10 ^ Z.of_nat (S p)))%string.
Proof.
  intros Hx Hz. unfold format_f.
  destruct (Rlt_dec x 0) as [Hneg | _]; [lra |].
  rewrite Rabs_pos_eq by exact Hx.
  now rewrite (round_half_even_near z).
Qed.

Ltac format_value p z :=
  rewrite (format_f_near p z) by lra.

(** The first and the last line of the table, character by character. *)
Lemma utp_first_line :
  nth_error (fst utp) 0
  = Some ("AWG30 0.006 inch thick ECTFE/Halar = 12.93 pf/ft 0.0424 pf/mm "
          ++ "(General Cable) 15.21 pf/ft 0.0499 pf/mm (Howard Johnson)")%string.
Proof.
  rewrite utp_ok. cbn [fst].
  rewrite (expected_output_nth _ 0 0 0 ("ECTFE/Halar"%string, 2.60)
             ("AWG30"%string, "7/38"%string, 0.012) 0.006) by reflexivity.
  unfold expected_line, expected_row.
  cbn [fst snd capacitance capacitance_mm capacitance2 capacitance2_mm].
  destruct first_row_values as [H1 H2].
  format_value 2%nat 6%Z.
  format_value 1%nat 1293%Z.
  format_value 3%nat 424%Z.
  format_value 1%nat 1521%Z.
  format_value 3%nat 499%Z.
  reflexivity.
Qed.

Lemma utp_last_line :
  nth_error (fst utp) 959
  = Some ("AWG22 0.060 inch thick Tefzel =  6.81 pf/ft 0.0223 pf/mm "
          ++ "(General Cable)  9.32 pf/ft 0.0306 pf/mm (Howard Johnson)")%string.
Proof.
  rewrite utp_ok. cbn [fst].
  rewrite (expected_output_nth _ 15 4 11 ("Tefzel"%string, 2.6)
             ("AWG22"%string, "7/30"%string, 0.030) 0.060) by reflexivity.
  unfold expected_line, expected_row.
  cbn [fst snd capacitance capacitance_mm capacitance2 capacitance2_mm].
  destruct last_row_values as [H1 H2].
  format_value 2%nat 60%Z.
  format_value 1%nat 681%Z.
  format_value 3%nat 223%Z.
  format_value 1%nat 932%Z.
  format_value 3%nat 306%Z.
  reflexivity.
Qed.

Lemma first_line_text :
  expected_line ("ECTFE/Halar"%string, 2.60) ("AWG30"%string, "7/38"%string, 0.012) 0.006
    (expected_row STRANDING_FACTOR ("ECTFE/Halar"%string, 2.60)
       ("AWG30"%string, "7/38"%string, 0.012) 0.006)
  = ("AWG30 0.006 inch thick ECTFE/Halar = 12.93 pf/ft 0.0424 pf/mm "
     ++ "(General Cable) 15.21 pf/ft 0.0499 pf/mm (Howard Johnson)")%string.
Proof.
  pose proof utp_first_line as H. rewrite utp_ok in H. cbn [fst] in H.
  rewrite (expected_output_nth _ 0 0 0 ("ECTFE/Halar"%string, 2.60)
             ("AWG30"%string, "7/38"%string, 0.012) 0.006) in H by reflexivity.
  assert (E : forall a b : string, Some a = Some b -> a = b)
    by (intros a b [=]; assumption).
  exact (E _ _ H).
Qed.

Lemma first_line_of_row (r : row) (s : string) :
  row_of STRANDING_FACTOR ("ECTFE/Halar"%string, 2.60)
         ("AWG30"%string, "7/38"%string, 0.012) 0.006 = Ok r ->
  py_format LINE_FORMAT
    (line_args ("ECTFE/Halar"%string, 2.60)
               ("AWG30"%string, "7/38"%string, 0.012) 0.006 r) = Ok s ->
  s = ("AWG30 0.006 inch thick ECTFE/Halar = 12.93 pf/ft 0.0424 pf/mm "
       ++ "(General Cable) 15.21 pf/ft 0.0499 pf/mm (Howard Johnson)")%string.
Proof.
  intros Hr Hf.
  rewrite row_of_ok in Hr by (try exact stranding_factor_range; cbn [snd]; lra).
  assert (E : forall (A : Type) (a b : A), Ok a = Ok b -> a = b)
    by (intros A a b [=]; assumption).
  apply E in Hr. subst r. rewrite py_format_row in Hf. apply E in Hf. subst s.
  exact first_line_text.
Qed.

Lemma general_cable_printed_value_halar_awg30 :
  exists r,
    row_of STRANDING_FACTOR ("ECTFE/Halar"%string, 2.60)
           ("AWG30"%string, "7/38"%string, 0.012) 0.006 = Ok r /\
    capacitance r
    = (2.2 * 2.60) / log10 ((1.3 * (0.012 + 0.012)) / (0.939 * 0.012)) /\
    In ("AWG30 0.006 inch thick ECTFE/Halar = 12.93 pf/ft 0.0424 pf/mm "
        ++ "(General Cable) 15.21 pf/ft 0.0499 pf/mm (Howard Johnson)")%string
       (fst utp).
Proof.
  destruct (general_cable_printed_value ("ECTFE/Halar"%string, 2.60)
              ("AWG30"%string, "7/38"%string, 0.012) 0.006)
    as (r & s & Hr & Hv & Hf & Hin & _); [simpl; auto .. |].
  exists r. split; [exact Hr |]. split.
  - rewrite Hv. cbn [snd].
    replace (2 * 0.006 + 0.012) with (0.012 + 0.012) by lra.
    reflexivity.
  - rewrite <- (first_line_of_row r s Hr Hf). exact Hin.
Defined.

Lemma howard_johnson_printed_value_halar_awg30 :
  exists r,
    row_of STRANDING_FACTOR ("ECTFE/Halar"%string, 2.60)
           ("AWG30"%string, "7/38"%string, 0.012) 0.006 = Ok r /\
    capacitance2 r
    = ((12 * 0.7065) / ln ((2 * (2 * 0.006 + 0.012)) / (0.939 * 0.012))) * 2.60 /\
    capacitance2 r
    <> ((12 * 0.7065) / log10 ((2 * (2 * 0.006 + 0.012)) / (0.939 * 0.012))) * 2.60 /\
    In ("AWG30 0.006 inch thick ECTFE/Halar = 12.93 pf/ft 0.0424 pf/mm "
        ++ "(General Cable) 15.21 pf/ft 0.0499 pf/mm (Howard Johnson)")%string
       (fst utp).
Proof.
  destruct (howard_johnson_printed_value ("ECTFE/Halar"%string, 2.60)
              ("AWG30"%string, "7/38"%string, 0.012) 0.006)
    as (r & s & Hr & Hv & Hne & Hf & Hin & _); [simpl; auto .. |].
  exists r. split; [exact Hr |]. split; [exact Hv |]. split; [exact Hne |].
  rewrite <- (first_line_of_row r s Hr Hf). exact Hin.
Defined.

(** ** The loop body on arbitrary inputs *)

Lemma ln_zero_iff (a : R) : 0 < a -> ln a = 0 <-> a = 1.
Proof.
  intros Ha. split.
  - intros H. apply ln_inv; [exact Ha | lra | now rewrite ln_1].
  - intros ->. apply ln_1.
Qed.

Lemma log10_zero_iff (a : R) : 0 < a -> log10 a = 0 <-> a = 1.
Proof.
  intros Ha. pose proof ln_10_pos as H10. unfold log10.
  rewrite <- (ln_zero_iff a Ha). split.
  - intros H. apply Rmult_eq_compat_r with (r := ln 10) in H.
    unfold Rdiv in H. rewrite Rmult_assoc, Rinv_l, Rmult_0_l in H by lra. lra.
  - intros ->. unfold Rdiv. apply Rmult_0_l.
Qed.

Lemma howard_johnson_arg_scaled (k D t : R) :
  howard_johnson_arg k D t = general_cable_arg k D t * (2 / 1.3).
Proof. unfold howard_johnson_arg, general_cable_arg, Rdiv. lra. Qed.

Lemma row_of_args (k : R) material conductor thickness :
  row_of k material conductor thickness
  = rbind (py_div (1.3 * (2 * thickness + snd conductor)) (k * snd conductor)) (fun a1 =>
    rbind (math_log10 a1) (fun l1 =>
    rbind (py_div (2.2 * snd material) l1) (fun c1 =>
    rbind (py_div (2 * (2 * thickness + snd conductor)) (k * snd conductor)) (fun a2 =>
    rbind (math_log a2) (fun l2 =>
    rbind (py_div (12 * 0.7065) l2) (fun q2 =>
    Ok (mkRow c1 (c1 / 304.8) (q2 * snd material) (q2 * snd material / 304.8)))))))).
Proof.
  unfold row_of. rewrite MM_PER_FT_value.
  replace (2.0 * thickness) with (2 * thickness) by lra.
  destruct (py_div (1.3 * (2 * thickness + snd conductor)) (k * snd conductor));
    cbn [rbind]; [| reflexivity].
  destruct (math_log10 a); cbn [rbind]; [| reflexivity].
  destruct (py_div (2.2 * snd material) a0); cbn [rbind]; [| reflexivity].
  rewrite py_div_ok by lra. cbn [rbind].
  destruct (py_div (2 * (2 * thickness + snd conductor)) (k * snd conductor));
    cbn [rbind]; [| reflexivity].
  destruct (math_log a2); cbn [rbind]; [| reflexivity].
  destruct (py_div (12 * 0.7065) a3); cbn [rbind]; [| reflexivity].
  rewrite py_div_ok by lra. reflexivity.
Qed.

Lemma row_defined_ok (k : R) material conductor thickness :
  row_defined k (snd conductor) thickness ->
  row_of k material conductor thickness
  = Ok (expected_row k material conductor thickness).
Proof.
  intros (HkD & Ha1 & Hn1 & Hn2). rewrite row_of_args.
  unfold general_cable_arg, howard_johnson_arg in *.
  assert (Ha2 : 0 < 2 * (2 * thickness + snd conductor) / (k * snd conductor)).
  { fold (howard_johnson_arg k (snd conductor) thickness).
    rewrite howard_johnson_arg_scaled. unfold general_cable_arg.
    apply Rmult_lt_0_compat; lra. }
  rewrite !(py_div_ok _ _ HkD). cbn [rbind].
  rewrite math_log10_ok by exact Ha1. cbn [rbind].
  rewrite py_div_ok by (intros E; apply Hn1, (log10_zero_iff _ Ha1), E). cbn [rbind].
  rewrite math_log_ok by exact Ha2. cbn [rbind].
  rewrite py_div_ok by (intros E; apply Hn2, (ln_zero_iff _ Ha2), E). cbn [rbind].
  reflexivity.
Qed.

(** ** The run for an arbitrary stranding factor *)

Lemma loop_body_defined (k : R) material conductor thickness (out : list string) :
  row_defined k (snd conductor) thickness ->
  loop_body k material conductor thickness out
  = (out ++ [expected_line material conductor thickness
               (expected_row k material conductor thickness)], Ok tt).
Proof.
  intros H. unfold loop_body, bind, lift.
  rewrite row_defined_ok by exact H. rewrite py_format_row. reflexivity.
Qed.

Lemma row_defined_positive (k D t : R) :
  0 < D -> 0 < t ->
  row_defined k D t <->
  0 < k /\ k * D <> 1.3 * (2 * t + D) /\ k * D <> 2 * (2 * t + D).
Proof.
  intros HD Ht. unfold row_defined, general_cable_arg, howard_johnson_arg.
  assert (Hdiv : forall c, c / (k * D) * (k * D) = c \/ k * D = 0).
  { intros c. destruct (Req_dec (k * D) 0) as [E | N]; [now right | left].
    unfold Rdiv. rewrite Rmult_assoc, Rinv_l by exact N. ring. }
  split.
  - intros (HkD & Ha1 & Hn1 & Hn2).
    assert (Hk : 0 < k).
    { destruct (Rlt_dec 0 k) as [Hk | Hk]; [exact Hk | exfalso].
      assert (Hneg : k * D < 0) by nra.
      apply Rinv_lt_0_compat in Hneg. unfold Rdiv in Ha1. nra. }
    split; [exact Hk |]. split; intros E.
    + apply Hn1. rewrite E. unfold Rdiv. rewrite <- E. now apply Rinv_r.
    + apply Hn2. rewrite E. unfold Rdiv. rewrite <- E. now apply Rinv_r.
  - intros (Hk & Hn1 & Hn2).
    assert (HkD : 0 < k * D) by nra.
    split; [lra |]. split; [apply Rdiv_lt_0_compat; nra |].
    split; intros E.
    + apply Hn1. destruct (Hdiv (1.3 * (2 * t + D))) as [H | H]; [| lra].
      rewrite E in H. lra.
    + apply Hn2. destruct (Hdiv (2 * (2 * t + D))) as [H | H]; [| lra].
      rewrite E in H. lra.
Qed.

(** ** The ranges of the tables *)

Lemma dielectric_range : Forall (fun m => 2.1 <= snd m <= 7.70) DIELECTRIC_LIST.
Proof.
  unfold DIELECTRIC_LIST.
  repeat (apply Forall_cons; [cbn [snd]; lra |]). apply Forall_nil.
Qed.

Lemma conductor_range : Forall (fun c => 0.012 <= snd c <= 0.030) CONDUCTOR_LIST.
Proof.
  unfold CONDUCTOR_LIST.
  repeat (apply Forall_cons; [cbn [snd]; lra |]). apply Forall_nil.
Qed.

Lemma thickness_range :
  Forall (fun t => 0.006 <= t <= 0.060) INSULATION_THICKNESS_LIST.
Proof.
  unfold INSULATION_THICKNESS_LIST.
  repeat (apply Forall_cons; [lra |]). apply Forall_nil.
Qed.

Lemma In_dielectric_range m : In m DIELECTRIC_LIST -> 2.1 <= snd m <= 7.70.
Proof. apply (proj1 (Forall_forall _ _) dielectric_range). Qed.

Lemma In_conductor_range c : In c CONDUCTOR_LIST -> 0.012 <= snd c <= 0.030.
Proof. apply (proj1 (Forall_forall _ _) conductor_range). Qed.

Lemma In_thickness_range t :
  In t INSULATION_THICKNESS_LIST -> 0.006 <= t <= 0.060.
Proof. apply (proj1 (Forall_forall _ _) thickness_range). Qed.

(** ** Stranding factors other than 0.939 *)

Lemma log_arg_above_1 (c k D t : R) :
  0 < k * D -> k * D < c * (2 * t + D) -> 1 < log_arg c k D t.
Proof.
  intros HkD Hlt. unfold log_arg.
  apply Rmult_lt_reg_r with (k * D); [exact HkD |].
  unfold Rdiv. rewrite Rmult_assoc, Rinv_l by lra. lra.
Qed.



Lemma row_defined_of_lt (k D t : R) :
  0 < D -> 0 < t -> 0 < k -> k * D < 1.3 * (2 * t + D) -> row_defined k D t.
Proof.
  intros HD Ht Hk Hlt. apply row_defined_positive; [assumption | assumption |].
  split; [exact Hk | split; nra].
Qed.


(** X5. Each of the six stranding factors the script lists gives a
    complete run: 960 lines, status 0, and all four values of every row
    strictly positive. *)
Theorem listed_stranding_factors_complete :
  forall k, In k STRANDING_FACTORS ->
    snd (run (script k)) = 0%Z /\
    List.length (fst (run (script k))) = 960%nat /\
    forall material conductor thickness,
      In material DIELECTRIC_LIST -> In conductor CONDUCTOR_LIST ->
      In thickness INSULATION_THICKNESS_LIST ->
      exists r,
        row_of k material conductor thickness = Ok r /\
        0 < capacitance r /\ 0 < capacitance_mm r /\
        0 < capacitance2 r /\ 0 < capacitance2_mm r.
Proof.
  intros k Hin.
  pose proof (proj1 (Forall_forall _ _) stranding_factors_range k Hin) as Hk.
  cbn beta in Hk.
  assert (Hlt : forall c t, In c CONDUCTOR_LIST -> In t INSULATION_THICKNESS_LIST ->
                            0 < snd c /\ 0 < t /\ k * snd c < 1.3 * (2 * t + snd c)).
  { intros c t Hc Ht. pose proof (In_conductor_range c Hc).
    pose proof (In_thickness_range t Ht). repeat split; nra. }
  assert (Hrun : main_loops k [] = ([] ++ expected_output k, Ok tt)).
  { unfold main_loops, expected_output.
    apply for_each_emit. intros m o _.
    apply for_each_emit. intros c o' Hc.
    apply for_each_emit. intros t o'' Ht.
    destruct (Hlt c t Hc Ht) as (HD & Ht0 & Hlt').
    apply loop_body_defined. apply row_defined_of_lt; (assumption || lra). }
  unfold run, script, bind. rewrite Hrun. cbn [app sys_exit lift fst snd].
  split; [reflexivity |]. split; [apply expected_output_length |].
  intros m c t Hm Hc Ht. destruct (Hlt c t Hc Ht) as (HD & Ht0 & Hlt').
  pose proof (In_dielectric m Hm) as Hd.
  exists (expected_row k m c t).
  split; [apply row_defined_ok; apply row_defined_of_lt; (assumption || lra) |].
  cbn [capacitance capacitance_mm capacitance2 capacitance2_mm expected_row].
  assert (H1 : 0 < general_cable (snd m) (snd c) t k).
  { unfold general_cable. apply Rdiv_lt_0_compat; [lra |].
    apply log10_pos, (log_arg_above_1 1.3); nra. }
  assert (H2 : 0 < howard_johnson (snd m) (snd c) t k).
  { unfold howard_johnson. apply Rmult_lt_0_compat; [| exact Hd].
    apply Rdiv_lt_0_compat; [lra |].
    apply ln_pos, (log_arg_above_1 2); nra. }
  repeat split; lra.
Qed.

Lemma listed_stranding_factors_complete_91_strands :
  snd (run (script 0.988)) = 0%Z /\
  List.length (fst (run (script 0.988))) = 960%nat /\
  forall material conductor thickness,
    In material DIELECTRIC_LIST -> In conductor CONDUCTOR_LIST ->
    In thickness INSULATION_THICKNESS_LIST ->
    exists r,
      row_of 0.988 material conductor thickness = Ok r /\
      0 < capacitance r /\ 0 < capacitance_mm r /\
      0 < capacitance2 r /\ 0 < capacitance2_mm r.
Proof.
  apply (listed_stranding_factors_complete 0.988).
  simpl. do 5 right. left. reflexivity.
Defined.



(** ** Entries of the tables that are the double of another *)

Lemma expected_row_twice (k : R) material conductor conductor' thickness :
  0 < k -> 0 < snd conductor -> snd conductor' = 2 * snd conductor ->
  expected_row k material conductor' (2 * thickness)
  = expected_row k material conductor thickness.
Proof.
  intros Hk HD E. unfold expected_row, general_cable, howard_johnson. rewrite E.
  replace (1.3 * (2 * (2 * thickness) + 2 * snd conductor) / (k * (2 * snd conductor)))
    with (1.3 * (2 * thickness + snd conductor) / (k * snd conductor))
    by (field; split; lra).
  replace (2 * (2 * (2 * thickness) + 2 * snd conductor) / (k * (2 * snd conductor)))
    with (2 * (2 * thickness + snd conductor) / (k * snd conductor))
    by (field; split; lra).
  reflexivity.
Qed.

(** X8. Where the tables hold a conductor of twice the diameter and a
    thickness of twice the thickness (AWG24 for AWG30, AWG22 for AWG28;
    0.012 for 0.006, 0.030 for 0.015, 0.060 for 0.030), the two lines of a
    material are formatted from the same row: the loop body only sees the
    ratio of thickness to diameter.  In binary64 the doubling is exact and
    the two rows are the same float for float, whatever the C library
    returns for the logarithms. *)
Theorem row_scale_invariant :
  (forall material conductor conductor' thickness thickness',
      In material DIELECTRIC_LIST ->
      In conductor CONDUCTOR_LIST -> In conductor' CONDUCTOR_LIST ->
      In thickness INSULATION_THICKNESS_LIST ->
      In thickness' INSULATION_THICKNESS_LIST ->
      snd conductor' = 2 * snd conductor -> thickness' = 2 * thickness ->
      exists r s s',
        row_of STRANDING_FACTOR material conductor thickness = Ok r /\
        row_of STRANDING_FACTOR material conductor' thickness' = Ok r /\
        py_format LINE_FORMAT (line_args material conductor thickness r) = Ok s /\
        py_format LINE_FORMAT (line_args material conductor' thickness' r) = Ok s' /\
        In s (fst utp) /\ In s' (fst utp)) /\
  (forall (libm_log10 libm_log : PrimFloat.float -> PrimFloat.float)
          (material : string * PrimFloat.float) conductor conductor' thickness thickness',
      In conductor B64.CONDUCTOR_LIST -> In conductor' B64.CONDUCTOR_LIST ->
      In thickness B64.INSULATION_THICKNESS_LIST ->
      In thickness' B64.INSULATION_THICKNESS_LIST ->
      PrimFloat.eqb (snd conductor') (B64.twice (snd conductor)) = true ->
      PrimFloat.eqb thickness' (B64.twice thickness) = true ->
      B64.row_of libm_log10 libm_log B64.STRANDING_FACTOR material conductor' thickness'
      = B64.row_of libm_log10 libm_log B64.STRANDING_FACTOR material conductor thickness).
Proof.
  split.
  - intros m c c' t t' Hm Hc Hc' Ht Ht' ED ->.
    destruct (table_row m c t Hm Hc Ht) as [Hrow Hin].
    destruct (table_row m c' (2 * t) Hm Hc' Ht') as [Hrow' Hin'].
    pose proof (In_conductor c Hc) as HD. pose proof stranding_factor_range as Hk.
    rewrite (expected_row_twice _ m c c' t (proj1 Hk) HD ED) in Hrow', Hin'.
    exists (expected_row STRANDING_FACTOR m c t). eexists. eexists.
    split; [exact Hrow |]. split; [exact Hrow' |].
    split; [apply py_format_row |]. split; [apply py_format_row |].
    split; [exact Hin | exact Hin'].
  - intros libm_log10 libm_log m c c' t t'. apply B64Facts.row_of_twice.
Qed.

Lemma row_scale_invariant_awg24_awg30 :
  (exists r s s',
      row_of STRANDING_FACTOR ("PVC"%string, 5.00)
             ("AWG30"%string, "7/38"%string, 0.012) 0.006 = Ok r /\
      row_of STRANDING_FACTOR ("PVC"%string, 5.00)
             ("AWG24"%string, "7/32"%string, 0.024) 0.012 = Ok r /\
      py_format LINE_FORMAT
        (line_args ("PVC"%string, 5.00) ("AWG30"%string, "7/38"%string, 0.012) 0.006 r)
      = Ok s /\
      py_format LINE_FORMAT
        (line_args ("PVC"%string, 5.00) ("AWG24"%string, "7/32"%string, 0.024) 0.012 r)
      = Ok s' /\
      In s (fst utp) /\ In s' (fst utp)) /\
  (forall (libm_log10 libm_log : PrimFloat.float -> PrimFloat.float)
          (material : string * PrimFloat.float),
      B64.row_of libm_log10 libm_log B64.STRANDING_FACTOR material
                 (nth 3 B64.CONDUCTOR_LIST B64.first_conductor)
                 (nth 3 B64.INSULATION_THICKNESS_LIST B64.first_thickness)
      = B64.row_of libm_log10 libm_log B64.STRANDING_FACTOR material
                   B64.first_conductor B64.first_thickness).
Proof.
  split.
  - apply (proj1 row_scale_invariant ("PVC"%string, 5.00)
             ("AWG30"%string, "7/38"%string, 0.012)
             ("AWG24"%string, "7/32"%string, 0.024) 0.006 0.012);
      [simpl; do 2 right; left; reflexivity
      | simpl; left; reflexivity
      | simpl; do 3 right; left; reflexivity
      | simpl; left; reflexivity
      | simpl; do 3 right; left; reflexivity
      | cbn [snd]; lra
      | lra].
  - intros libm_log10 libm_log material.
    apply (proj2 row_scale_invariant libm_log10 libm_log material);
      [simpl; left; reflexivity
      | simpl; do 3 right; left; reflexivity
      | simpl; left; reflexivity
      | simpl; do 3 right; left; reflexivity
      | vm_compute; reflexivity
      | vm_compute; reflexivity].
Defined.

(** ** Larger conductors *)






(** ** The two formulas against each other, and the size of the values *)

Lemma ln_smallest_general_cable_arg : 0.661776 <= ln (1820 / 939) <= 0.661777.
Proof. enclose_ln 30%nat 1820%Z 939%Z. Qed.

Lemma ln_ratio_of_factors : 0.430782 <= ln (20 / 13) <= 0.430783.
Proof. enclose_ln 30%nat 20%Z 13%Z. Qed.

(** The logarithms of one row of the tables. *)
Lemma table_logs (D t : R) :
  0.012 <= D <= 0.030 -> 0.006 <= t <= 0.060 ->
  0.661776 <= ln ((1.3 * (2 * t + D)) / (STRANDING_FACTOR * D)) /\
  ln ((2 * (2 * t + D)) / (STRANDING_FACTOR * D))
  = ln ((1.3 * (2 * t + D)) / (STRANDING_FACTOR * D)) + ln (20 / 13).
Proof.
  intros HD Ht. unfold STRANDING_FACTOR.
  assert (HkD : 0 < 0.939 * D) by lra.
  assert (Ha : 1820 / 939 <= 1.3 * (2 * t + D) / (0.939 * D)).
  { apply Rmult_le_reg_r with (0.939 * D); [exact HkD |].
    unfold Rdiv at 2. rewrite Rmult_assoc, Rinv_l by lra. lra. }
  split.
  - eapply Rle_trans; [apply ln_smallest_general_cable_arg |].
    apply ln_le; [lra | exact Ha].
  - replace (2 * (2 * t + D) / (0.939 * D))
      with (1.3 * (2 * t + D) / (0.939 * D) * (20 / 13)) by (unfold Rdiv; lra).
    apply ln_mult; lra.
Qed.

Lemma div_lt_cross (a b x y : R) :
  0 < x -> 0 < y -> a * y < b * x -> a / x < b / y.
Proof.
  intros Hx Hy H. apply Rmult_lt_reg_r with (x * y); [nra |].
  replace (a / x * (x * y)) with (a * y) by (field; lra).
  replace (b / y * (x * y)) with (b * x) by (field; lra).
  exact H.
Qed.

Lemma table_formulas (d D t : R) :
  2.1 <= d <= 7.70 -> 0.012 <= D <= 0.030 -> 0.006 <= t <= 0.060 ->
  0 < general_cable d D t STRANDING_FACTOR /\
  general_cable d D t STRANDING_FACTOR < howard_johnson d D t STRANDING_FACTOR /\
  howard_johnson d D t STRANDING_FACTOR < 60.
Proof.
  intros Hd HD Ht. destruct (table_logs D t HD Ht) as [Hx Hy].
  pose proof ln_10_enclosure as H10. pose proof ln_ratio_of_factors as HL.
  unfold general_cable, howard_johnson, log10. rewrite Hy.
  set (x := ln _) in *. set (L := ln (20 / 13)) in *. set (T := ln 10) in *.
  replace (2.2 * d / (x / T)) with (2.2 * d * T / x) by (field; lra).
  replace (12 * 0.7065 / (x + L) * d) with (12 * 0.7065 * d / (x + L)) by (field; lra).
  split; [apply Rdiv_lt_0_compat; nra |].
  split.
  - apply div_lt_cross; [lra | lra |].
    assert (B1 : T * (x + L) <= 2.3025851 * (x + L)) by (apply Rmult_le_compat_r; lra).
    assert (B2 : 2.2 * (T * (x + L)) < 12 * 0.7065 * x) by lra.
    nra.
  - apply Rmult_lt_reg_r with (x + L); [lra |].
    unfold Rdiv. rewrite Rmult_assoc, Rinv_l by lra. nra.
Qed.

(** X10. On every line of the table the Howard Johnson value is strictly
    above the General Cable value, per foot and per millimetre; the
    per-foot values lie strictly between 0 and 60, the per-millimetre
    values strictly between 0 and 0.2. *)
Theorem howard_johnson_above_general_cable :
  forall material conductor thickness,
    In material DIELECTRIC_LIST -> In conductor CONDUCTOR_LIST ->
    In thickness INSULATION_THICKNESS_LIST ->
    exists r,
      row_of STRANDING_FACTOR material conductor thickness = Ok r /\
      0 < capacitance r /\ capacitance r < capacitance2 r /\ capacitance2 r < 60 /\
      0 < capacitance_mm r /\ capacitance_mm r < capacitance2_mm r /\
      capacitance2_mm r < 0.2.
Proof.
  intros m c t Hm Hc Ht.
  destruct (table_row m c t Hm Hc Ht) as [Hrow _].
  exists (expected_row STRANDING_FACTOR m c t). split; [exact Hrow |].
  cbn [capacitance capacitance_mm capacitance2 capacitance2_mm expected_row].
  destruct (table_formulas (snd m) (snd c) t (In_dielectric_range m Hm)
              (In_conductor_range c Hc) (In_thickness_range t Ht)) as (H0 & H1 & H2).
  repeat split; lra.
Qed.

Lemma howard_johnson_above_general_cable_halar_awg30 :
  exists r,
    row_of STRANDING_FACTOR ("ECTFE/Halar"%string, 2.60)
           ("AWG30"%string, "7/38"%string, 0.012) 0.006 = Ok r /\
    0 < capacitance r /\ capacitance r < capacitance2 r /\ capacitance2 r < 60 /\
    0 < capacitance_mm r /\ capacitance_mm r < capacitance2_mm r /\
    capacitance2_mm r < 0.2.
Proof.
  apply (howard_johnson_above_general_cable ("ECTFE/Halar"%string, 2.60)
           ("AWG30"%string, "7/38"%string, 0.012) 0.006);
    simpl; auto.
Defined.

(** ** The width of the columns *)

Lemma round_half_even_bounds (z : Z) (x : R) :
  0 <= x -> x < IZR z - 1 / 2 -> (0 <= round_half_even x < z)%Z.
Proof.
  intros H0 Hz. unfold round_half_even.
  destruct (base_Int_part x) as [H1 H2].
  set (f := Int_part x) in *.
  assert (Hf0 : (0 <= f)%Z).
  { assert (A : (-1 < f)%Z) by (apply lt_IZR; lra). lia. }
  assert (Hfz : (f < z)%Z) by (apply lt_IZR; lra).
  destruct (Rlt_dec (x - IZR f) (1 / 2)) as [_ | N]; [lia |].
  assert (Hf1 : (f + 1 < z)%Z) by (apply lt_IZR; rewrite plus_IZR; lra).
  destruct (Rlt_dec (1 / 2) (x - IZR f)); [lia |].
  destruct (Z.even f); lia.
Qed.

Lemma spaces_length (n : nat) : String.length (spaces n) = n.
Proof. induction n as [| n IH]; cbn [spaces String.length]; congruence. Qed.

Lemma rjust_length (w : nat) (s : string) :
  String.length (rjust w s) = Nat.max w (String.length s).
Proof.
  unfold rjust. rewrite string_length_app, spaces_length. lia.
Qed.

Lemma decimal_of_Z_length (q : Z) :
  (0 <= q < 100)%Z ->
  String.length (decimal_of_Z q) = if (q <? 10)%Z then 1%nat else 2%nat.
Proof.
  intros Hq. rewrite <- (Z2Nat.id q) by lia.
  assert (Hn : (Z.to_nat q < 100)%nat) by lia.
  revert Hn. generalize (Z.to_nat q). intros n Hn.
  do 100 (destruct n as [| n]; [reflexivity |]). lia.
Qed.

Lemma format_f_length (p : nat) (x : R) :
  0 <= x ->
  String.length (format_f (S p) x)
  = (String.length
       (decimal_of_Z (round_half_even (x * 10 ^ S p) / 10 ^ Z.of_nat (S p)))
     + 2 + p)%nat.
Proof.
  intros Hx. unfold format_f.
  destruct (Rlt_dec x 0) as [Hneg | _]; [lra |].
  rewrite Rabs_pos_eq by exact Hx.
  rewrite !string_length_app, fixed_digits_length. cbn [String.length]. lia.
Qed.

(** [%5.2f] of a value below 99.995 fills exactly five characters. *)
Lemma width_5_2f (x : R) :
  0 <= x -> x < 99.99 -> String.length (rjust 5 (format_f 2 x)) = 5%nat.
Proof.
  intros H0 Hx. rewrite rjust_length, (format_f_length 1) by exact H0.
  destruct (round_half_even_bounds 10000 (x * 10 ^ 2) ltac:(lra) ltac:(lra)) as [A B].
  set (n := round_half_even _) in *.
  rewrite decimal_of_Z_length.
  - destruct (_ <? 10)%Z; reflexivity.
  - change (10 ^ Z.of_nat 2)%Z with 100%Z. split.
    + apply Z.div_pos; lia.
    + apply Z.div_lt_upper_bound; lia.
Qed.

(** [%5.4f] of a value below 0.99995 takes six characters. *)
Lemma width_5_4f (x : R) :
  0 <= x -> x < 0.9999 -> String.length (rjust 5 (format_f 4 x)) = 6%nat.
Proof.
  intros H0 Hx. rewrite rjust_length, (format_f_length 3) by exact H0.
  destruct (round_half_even_bounds 10000 (x * 10 ^ 4) ltac:(lra) ltac:(lra)) as [A B].
  set (n := round_half_even _) in *.
  change (10 ^ Z.of_nat 4)%Z with 10000%Z.
  rewrite Z.div_small by lia. reflexivity.
Qed.

(** [%1.3f] of a value below 0.9995 takes five characters. *)
Lemma width_1_3f (x : R) :
  0 <= x -> x < 0.999 -> String.length (rjust 1 (format_f 3 x)) = 5%nat.
Proof.
  intros H0 Hx. rewrite rjust_length, (format_f_length 2) by exact H0.
  destruct (round_half_even_bounds 1000 (x * 10 ^ 3) ltac:(lra) ltac:(lra)) as [A B].
  set (n := round_half_even _) in *.
  change (10 ^ Z.of_nat 3)%Z with 1000%Z.
  rewrite Z.div_small by lia. reflexivity.
Qed.

(** X11. The numeric columns of the table have fixed widths: on every line
    the thickness takes 5 characters, each per-foot value 5 and each
    per-millimetre value 6, so a line is 103 characters longer than its
    gauge label and material name together. *)
Theorem utp_column_widths :
  forall material conductor thickness,
    In material DIELECTRIC_LIST -> In conductor CONDUCTOR_LIST ->
    In thickness INSULATION_THICKNESS_LIST ->
    exists r s,
      row_of STRANDING_FACTOR material conductor thickness = Ok r /\
      py_format LINE_FORMAT (line_args material conductor thickness r) = Ok s /\
      In s (fst utp) /\
      String.length (rjust 1 (format_f 3 thickness)) = 5%nat /\
      String.length (rjust 5 (format_f 2 (capacitance r))) = 5%nat /\
      String.length (rjust 5 (format_f 4 (capacitance_mm r))) = 6%nat /\
      String.length (rjust 5 (format_f 2 (capacitance2 r))) = 5%nat /\
      String.length (rjust 5 (format_f 4 (capacitance2_mm r))) = 6%nat /\
      String.length s
      = (String.length (fst (fst conductor)) + String.length (fst material) + 103)%nat.
Proof.
  intros m c t Hm Hc Ht.
  destruct (table_row m c t Hm Hc Ht) as [Hrow Hin].
  exists (expected_row STRANDING_FACTOR m c t). eexists.
  split; [exact Hrow |]. split; [apply py_format_row |]. split; [exact Hin |].
  destruct (table_formulas (snd m) (snd c) t (In_dielectric_range m Hm)
              (In_conductor_range c Hc) (In_thickness_range t Ht)) as (H0 & H1 & H2).
  pose proof (In_thickness_range t Ht) as Htr.
  cbn [capacitance capacitance_mm capacitance2 capacitance2_mm expected_row].
  assert (W0 := width_1_3f t ltac:(lra) ltac:(lra)).
  assert (W1 := width_5_2f (general_cable (snd m) (snd c) t STRANDING_FACTOR)
                  ltac:(lra) ltac:(lra)).
  assert (W2 := width_5_4f (general_cable (snd m) (snd c) t STRANDING_FACTOR / 304.8)
                  ltac:(lra) ltac:(lra)).
  assert (W3 := width_5_2f (howard_johnson (snd m) (snd c) t STRANDING_FACTOR)
                  ltac:(lra) ltac:(lra)).
  assert (W4 := width_5_4f (howard_johnson (snd m) (snd c) t STRANDING_FACTOR / 304.8)
                  ltac:(lra) ltac:(lra)).
  repeat (split; [assumption |]).
  unfold expected_line.
  cbn [capacitance capacitance_mm capacitance2 capacitance2_mm expected_row].
  rewrite !string_length_app, W0, W1, W2, W3, W4. cbn [String.length]. lia.
Qed.

Lemma utp_column_widths_halar_awg30 :
  exists r s,
    row_of STRANDING_FACTOR ("ECTFE/Halar"%string, 2.60)
           ("AWG30"%string, "7/38"%string, 0.012) 0.006 = Ok r /\
    py_format LINE_FORMAT
      (line_args ("ECTFE/Halar"%string, 2.60)
                 ("AWG30"%string, "7/38"%string, 0.012) 0.006 r) = Ok s /\
    In s (fst utp) /\
    String.length (rjust 1 (format_f 3 0.006)) = 5%nat /\
    String.length (rjust 5 (format_f 2 (capacitance r))) = 5%nat /\
    String.length (rjust 5 (format_f 4 (capacitance_mm r))) = 6%nat /\
    String.length (rjust 5 (format_f 2 (capacitance2 r))) = 5%nat /\
    String.length (rjust 5 (format_f 4 (capacitance2_mm r))) = 6%nat /\
    String.length s = (5 + 11 + 103)%nat.
Proof.
  apply (utp_column_widths ("ECTFE/Halar"%string, 2.60)
           ("AWG30"%string, "7/38"%string, 0.012) 0.006);
    simpl; auto.
Defined.

(** ** The first and the last line *)

(** X12. The run starts with the line of ECTFE/Halar, AWG30 and 0.006 inch
    and ends with the line of Tefzel, AWG22 and 0.060 inch, with these
    characters. *)
Theorem utp_first_and_last_line :
  nth_error (fst utp) 0
  = Some ("AWG30 0.006 inch thick ECTFE/Halar = 12.93 pf/ft 0.0424 pf/mm "
          ++ "(General Cable) 15.21 pf/ft 0.0499 pf/mm (Howard Johnson)")%string /\
  nth_error (fst utp) 959
  = Some ("AWG22 0.060 inch thick Tefzel =  6.81 pf/ft 0.0223 pf/mm "
          ++ "(General Cable)  9.32 pf/ft 0.0306 pf/mm (Howard Johnson)")%string /\
  List.length (fst utp) = 960%nat.
Proof.
  split; [exact utp_first_line |]. split; [exact utp_last_line |].
  rewrite utp_ok. apply expected_output_length.
Qed.
